(** * Multi-agent Codex orchestrator ([.codex/agents.py])

    A shallow embedding of the workflow runner of the MEXC sniper bot's
    development assistant: the task agents ([CodeReviewerAgent],
    [DocumentationAgent], [TestingAgent]), the orchestrator's constructor and
    [process_workflow], together with the Python runtime pieces they rely on
    ([sorted], [str.join], truthiness, [try]/[except]).

    External collaborators (the process environment, the file system, the
    chat-completion endpoint) are gathered in a [World]; effectful code runs in
    a small monad that threads the number of completion calls made so far and
    records, in order, what the program did: log records, completion requests
    and sleeps. *)

From Stdlib Require Import List String Ascii ZArith Bool Lia Permutation Sorted.
From Stdlib Require QArith_base.
Import ListNotations.
Local Open Scope list_scope.
Local Open Scope string_scope.

Set Implicit Arguments.

(* ===================================================================== *)
(** * Python runtime *)
(* ===================================================================== *)

Module Py.

(** [chr(10)] *)
Definition nl : string := String (ascii_of_nat 10) EmptyString.

(** [sep.join(parts)] *)
Definition join (sep : string) (parts : list string) : string :=
  String.concat sep parts.

(** The text of a triple-quoted literal, given line by line. *)
Definition text (lines : list string) : string := join nl lines.

(** Truthiness of an [Optional[str]]: [None] and [''] are falsy. *)
Definition truthy (v : option string) : bool :=
  match v with
  | None => false
  | Some s => negb (String.eqb s "")
  end.

(** [a or b] *)
Definition or_ (a b : option string) : option string :=
  if truthy a then a else b.

(** Exceptions.  Every class below derives from [Exception]; what the code
    observes of an exception is its class (in [except] clauses) and [str(e)]. *)
Inductive ExnClass : Type :=
| FileNotFoundError
| ValueError
| OtherException (class_name : string).

Record Exn : Type := { exn_class : ExnClass; str : string }.

Definition is_FileNotFoundError (e : Exn) : bool :=
  match exn_class e with
  | FileNotFoundError => true
  | _ => false
  end.

(** [except Exception] *)
Definition is_Exception (e : Exn) : bool := true.

Inductive Outcome (A : Type) : Type :=
| Returns (a : A)
| Raises (e : Exn).
Arguments Raises {A} e.

(** Values stored in the result dictionaries. *)
Inductive Value : Type :=
| VStr (s : string)
| VList (l : list string).

(** A [dict] with string keys, in insertion order. *)
Definition Dict : Type := list (string * Value).

(** [d.get(k)] *)
Fixpoint get (k : string) (d : Dict) : option Value :=
  match d with
  | [] => None
  | (k', v) :: d' => if String.eqb k' k then Some v else get k d'
  end.

(** [d.get(k) == s] for a string [s] *)
Definition get_eq_str (k : string) (s : string) (d : Dict) : bool :=
  match get k d with
  | Some (VStr v) => String.eqb v s
  | _ => false
  end.

(** [sorted(l, key=key, reverse=reverse)].  The list sort is stable and
    compares keys with [<] only; the result of a stable sort is determined by
    the keys, so an insertion sort stands for it here.  With [reverse] the
    list is reversed, sorted and reversed again, which is how stability is
    kept for descending order. *)
Section Sorted.
Variable A : Type.
Variable key : A -> Z.

Fixpoint insert (x : A) (l : list A) : list A :=
  match l with
  | [] => [x]
  | y :: l' => if (key y <? key x)%Z then y :: insert x l' else x :: y :: l'
  end.

Fixpoint sort_ascending (l : list A) : list A :=
  match l with
  | [] => []
  | x :: l' => insert x (sort_ascending l')
  end.

Definition sorted (reverse : bool) (l : list A) : list A :=
  if reverse then rev (sort_ascending (rev l)) else sort_ascending l.
End Sorted.

End Py.

Import Py.

(* ===================================================================== *)
(** * Data model *)
(* ===================================================================== *)

(** [class AgentType(Enum)] *)
Inductive AgentType : Type :=
| CODE_REVIEWER
| DOCUMENTATION
| TESTING
| REFACTORING
| ARCHITECTURE
| SECURITY
| PERFORMANCE.

(** [AgentType.value] *)
Definition value (t : AgentType) : string :=
  match t with
  | CODE_REVIEWER => "code_reviewer"
  | DOCUMENTATION => "documentation"
  | TESTING => "testing"
  | REFACTORING => "refactoring"
  | ARCHITECTURE => "architecture"
  | SECURITY => "security"
  | PERFORMANCE => "performance"
  end.

Definition AgentType_eqb (a b : AgentType) : bool :=
  match a, b with
  | CODE_REVIEWER, CODE_REVIEWER
  | DOCUMENTATION, DOCUMENTATION
  | TESTING, TESTING
  | REFACTORING, REFACTORING
  | ARCHITECTURE, ARCHITECTURE
  | SECURITY, SECURITY
  | PERFORMANCE, PERFORMANCE => true
  | _, _ => false
  end.

(** The project context: whatever [json.load] made of [context.json].  A
    JSON object is kept with each value as the text
    [json.dumps(value, indent=2)] gives for it; any other JSON value (a list,
    a string, a number, ...) is known by the name of its Python type, which
    is all the code can observe of it. *)
Inductive Context : Type :=
| JsonObject (entries : list (string * string))
| JsonOther (type_name : string).

(** [@dataclass class AgentTask] *)
Record AgentTask : Type := {
  task_type : AgentType;
  description : string;
  context : list (string * string);
  files : list string;
  requirements : list string;
  priority : Z
}.

(** The arguments of [client.chat.completions.create]; the single message has
    role [user]. *)
Record ChatRequest : Type := {
  model : string;
  content : string;
  max_tokens : Z;
  temperature : QArith_base.Q
}.

(** [AsyncOpenAI(api_key=...)] *)
Record AsyncOpenAI : Type := { client_api_key : string }.

(* ===================================================================== *)
(** * The world and the effect monad *)
(* ===================================================================== *)

Record World : Type := {
  (** [os.getenv] *)
  getenv : string -> option string;
  (** [with open(path, 'r') as f: f.read()] *)
  read_text : string -> Outcome string;
  (** [with open(context_file, 'r') as f: json.load(f)] on the agents'
      [context.json] *)
  load_context_json : Outcome Context;
  (** [response.choices[0].message.content] of the answer to the request,
      or the exception the call (or reading the answer) raises; the first
      argument is the number of completion calls made before this one. *)
  chat_completion : nat -> ChatRequest -> Outcome string
}.

Inductive LogLevel : Type := INFO | WARNING | ERROR.

Inductive Event : Type :=
| Log (level : LogLevel) (message : string)
| Completion (request : ChatRequest)
| Sleep (seconds : Z).

(** One run of a computation from a given count of earlier completion calls. *)
Record Run (A : Type) : Type := {
  result : Outcome A;
  emitted : list Event;
  calls : nat
}.

Definition M (A : Type) : Type := nat -> Run A.

Definition ret {A} (a : A) : M A :=
  fun n => {| result := Returns a; emitted := []; calls := n |}.

Definition raise {A} (e : Exn) : M A :=
  fun n => {| result := Raises e; emitted := []; calls := n |}.

Definition bind {A B} (m : M A) (f : A -> M B) : M B :=
  fun n =>
    let r := m n in
    match result r with
    | Returns a =>
        let r' := f a (calls r) in
        {| result := result r'; emitted := (emitted r ++ emitted r')%list; calls := calls r' |}
    | Raises e => {| result := Raises e; emitted := emitted r; calls := calls r |}
    end.

(** [try: body except <handles> as e: handler e] *)
Definition try_except {A} (body : M A) (handles : Exn -> bool) (handler : Exn -> M A) : M A :=
  fun n =>
    let r := body n in
    match result r with
    | Returns a => r
    | Raises e =>
        if handles e then
          let r' := handler e (calls r) in
          {| result := result r'; emitted := (emitted r ++ emitted r')%list; calls := calls r' |}
        else r
    end.

Declare Scope py_scope.
Delimit Scope py_scope with py.
Notation "x <- m ;; k" := (bind m (fun x => k))
  (at level 61, m at next level, right associativity) : py_scope.
Notation "m ;; k" := (bind m (fun _ => k))
  (at level 61, right associativity) : py_scope.
Local Open Scope py_scope.

(** A step that returns or raises without any other effect. *)
Definition outcome {A} (o : Outcome A) : M A :=
  fun n => {| result := o; emitted := []; calls := n |}.

Definition emit (e : Event) : M unit :=
  fun n => {| result := Returns tt; emitted := [e]; calls := n |}.

(** [logger.info], [logger.warning], [logger.error] *)
Definition logger_info (msg : string) : M unit := emit (Log INFO msg).
Definition logger_warning (msg : string) : M unit := emit (Log WARNING msg).
Definition logger_error (msg : string) : M unit := emit (Log ERROR msg).

(** [await asyncio.sleep(seconds)] *)
Definition asyncio_sleep (seconds : Z) : M unit := emit (Sleep seconds).

(* ===================================================================== *)
(** * The program *)
(* ===================================================================== *)

(** The three subclasses of [CodexAgent]; [process_task] dispatches on them. *)
Inductive AgentClass : Type :=
| CodeReviewerAgent
| DocumentationAgent
| TestingAgent.

(** The attributes [__init__] sets on a [CodexAgent]. *)
Record CodexAgent : Type := {
  agent_class : AgentClass;
  agent_type : AgentType;
  client : AsyncOpenAI;
  project_context : Context
}.

(** [class MultiAgentOrchestrator]: [self.api_key], [self.client],
    [self.agents]. *)
Record MultiAgentOrchestrator : Type := {
  api_key : string;
  orchestrator_client : AsyncOpenAI;
  agents : list (AgentType * CodexAgent)
}.

(** The dictionary [process_workflow] returns. *)
Record WorkflowSummary : Type := {
  workflow_results : list Dict;
  total_tasks : nat;
  completed_tasks : nat;
  failed_tasks : nat
}.

(** [key in agents] and [agents[key]] *)
Fixpoint agents_get (key : AgentType) (registry : list (AgentType * CodexAgent))
  : option CodexAgent :=
  match registry with
  | [] => None
  | (k, a) :: rest => if AgentType_eqb k key then Some a else agents_get key rest
  end.

Definition registered (self : MultiAgentOrchestrator) (task : AgentTask) : bool :=
  match agents_get (task_type task) (agents self) with
  | Some _ => true
  | None => false
  end.

(** [context.get('architecture', {})] rendered by [json.dumps(_, indent=2)] *)
Fixpoint dumps_architecture (ctx : list (string * string)) : string :=
  match ctx with
  | [] => "{}"
  | (k, v) :: rest => if String.eqb k "architecture" then v else dumps_architecture rest
  end.

Definition base_context (ctx : list (string * string)) : string :=
  text [
    "";
    "You are a specialized AI assistant for the MEXC Sniper Bot project - an advanced cryptocurrency trading platform.";
    "";
    "Project Context:";
    "- Backend: FastAPI with Python 3.11+, SQLModel, Valkey cache";
    "- Frontend: Next.js 15 with TypeScript, shadcn/ui components";
    "- AI Features: Pattern detection, trading strategies, market analysis";
    "- Key Components: Trading agents, MEXC API integration, calendar component";
    "";
    "Architecture: " ++ dumps_architecture ctx;
    ""
  ].

Definition agent_prompts (t : AgentType) : option string :=
  match t with
  | CODE_REVIEWER => Some (text [
      "";
      "You are a senior code reviewer specializing in trading systems and AI applications.";
      "Focus on:";
      "- Code quality, security, and performance";
      "- Trading logic correctness and risk management";
      "- Async/await patterns and error handling";
      "- Type safety and documentation";
      "- Following project patterns and best practices";
      "" ])
  | DOCUMENTATION => Some (text [
      "";
      "You are a technical documentation specialist.";
      "Focus on:";
      "- Clear, comprehensive documentation";
      "- API documentation with examples";
      "- Architecture diagrams and explanations";
      "- User guides and setup instructions";
      "- Code comments and docstrings";
      "" ])
  | TESTING => Some (text [
      "";
      "You are a testing specialist for financial applications.";
      "Focus on:";
      "- Comprehensive test coverage";
      "- Unit, integration, and performance tests";
      "- Mock trading scenarios and edge cases";
      "- Test data generation and fixtures";
      "- CI/CD testing strategies";
      "" ])
  | REFACTORING => Some (text [
      "";
      "You are a refactoring specialist.";
      "Focus on:";
      "- Code optimization and clean architecture";
      "- Performance improvements";
      "- Maintainability and readability";
      "- Design pattern implementation";
      "- Technical debt reduction";
      "" ])
  | ARCHITECTURE => Some (text [
      "";
      "You are a software architect specializing in trading systems.";
      "Focus on:";
      "- System design and scalability";
      "- Microservices architecture";
      "- Real-time data processing";
      "- Security and compliance";
      "- Technology stack optimization";
      "" ])
  | SECURITY => Some (text [
      "";
      "You are a security specialist for financial applications.";
      "Focus on:";
      "- API security and authentication";
      "- Data encryption and secure storage";
      "- Input validation and sanitization";
      "- Trading system security";
      "- Compliance with financial regulations";
      "" ])
  | PERFORMANCE => Some (text [
      "";
      "You are a performance optimization specialist.";
      "Focus on:";
      "- Trading latency optimization";
      "- Database query optimization";
      "- Caching strategies";
      "- Real-time processing efficiency";
      "- Resource utilization";
      "" ])
  end.

(** What [self.context.get] raises when the context is not a [dict]. *)
Definition no_attribute_get (type_name : string) : Exn :=
  {| exn_class := OtherException "AttributeError";
     str := "'" ++ type_name ++ "' object has no attribute 'get'" |}.

(** [CodexAgent.get_system_prompt]: building [base_context] calls
    [self.context.get], which only a [dict] has. *)
Definition get_system_prompt (self : CodexAgent) : Outcome string :=
  match project_context self with
  | JsonObject entries =>
      Returns (base_context entries
               ++ match agent_prompts (agent_type self) with
                  | Some p => p
                  | None => ""
                  end)
  | JsonOther type_name => Raises (no_attribute_get type_name)
  end.

(** The entry appended to [file_contents] for a file that could be read. *)
Definition file_block (file_path content : string) : string :=
  "File: " ++ file_path ++ nl ++ "```" ++ nl ++ content ++ nl ++ "```".

(** The prompts of the three agents, from the value of
    [self.get_system_prompt()] and the list [file_contents]. *)
Definition CodeReviewerAgent_prompt (system_prompt : string) (task : AgentTask)
    (file_contents : list string) : string :=
  text [
    "";
    system_prompt;
    "";
    "Please review the following code for the MEXC Sniper Bot project:";
    "";
    join nl file_contents;
    "";
    "Task Description: " ++ description task;
    "Requirements: " ++ join ", " (requirements task);
    "";
    "Provide a comprehensive code review including:";
    "1. Security issues and vulnerabilities";
    "2. Performance optimizations";
    "3. Code quality improvements";
    "4. Trading logic correctness";
    "5. Compliance with project patterns";
    "6. Specific actionable recommendations";
    "";
    "Format your response as structured feedback with severity levels.";
    ""
  ].

Definition DocumentationAgent_prompt (system_prompt : string) (task : AgentTask)
    (file_contents : list string) : string :=
  text [
    "";
    system_prompt;
    "";
    "Generate comprehensive documentation for the following code:";
    "";
    join nl file_contents;
    "";
    "Task Description: " ++ description task;
    "Requirements: " ++ join ", " (requirements task);
    "";
    "Create documentation that includes:";
    "1. Overview and purpose";
    "2. API endpoints with examples";
    "3. Function/class documentation";
    "4. Usage examples";
    "5. Configuration options";
    "6. Error handling";
    "7. Performance considerations";
    "";
    "Format the documentation in Markdown with proper structure and examples.";
    ""
  ].

Definition TestingAgent_prompt (system_prompt : string) (task : AgentTask)
    (file_contents : list string) : string :=
  text [
    "";
    system_prompt;
    "";
    "Generate comprehensive tests for the following code:";
    "";
    join nl file_contents;
    "";
    "Task Description: " ++ description task;
    "Requirements: " ++ join ", " (requirements task);
    "";
    "Create tests that include:";
    "1. Unit tests for all functions/methods";
    "2. Integration tests for API endpoints";
    "3. Mock trading scenarios";
    "4. Edge cases and error conditions";
    "5. Performance tests where applicable";
    "6. Fixtures and test data";
    "";
    "Use pytest framework and follow the existing test patterns in the project.";
    "Include proper async test patterns and mocking for external APIs.";
    ""
  ].

Section Program.

Variable w : World.

(** Reading a file: [with open(file_path, 'r') as f: content = f.read()]. *)
Definition open_read (file_path : string) : M string :=
  fun n => {| result := read_text w file_path; emitted := []; calls := n |}.

(** [with open(context_file, 'r') as f: return json.load(f)] *)
Definition open_json_load : M Context :=
  fun n => {| result := load_context_json w; emitted := []; calls := n |}.

(** [await self.client.chat.completions.create(...)] followed by
    [response.choices[0].message.content]. *)
Definition chat_completions_create (request : ChatRequest) : M string :=
  fun n => {| result := chat_completion w n request;
              emitted := [Completion request];
              calls := S n |}.

(** [os.getenv(name)] *)
Definition os_getenv (name : string) : option string := getenv w name.

(** [CodexAgent.load_project_context] *)
Definition load_project_context : M Context :=
  try_except
    open_json_load
    is_FileNotFoundError
    (fun _ =>
       logger_warning "Context file not found. Run .codex/setup.py first." ;;
       ret (JsonObject [])).

(** [CodexAgent.__init__], reached through [super().__init__] by the three
    subclasses' constructors. *)
Definition CodexAgent_init (cls : AgentClass) (agent_type : AgentType)
    (openai_client : AsyncOpenAI) : M CodexAgent :=
  ctx <- load_project_context ;;
  ret {| agent_class := cls;
         agent_type := agent_type;
         client := openai_client;
         project_context := ctx |}.

Definition CodeReviewerAgent_init (openai_client : AsyncOpenAI) : M CodexAgent :=
  CodexAgent_init CodeReviewerAgent CODE_REVIEWER openai_client.

Definition DocumentationAgent_init (openai_client : AsyncOpenAI) : M CodexAgent :=
  CodexAgent_init DocumentationAgent DOCUMENTATION openai_client.

Definition TestingAgent_init (openai_client : AsyncOpenAI) : M CodexAgent :=
  CodexAgent_init TestingAgent TESTING openai_client.

(** The loop every [process_task] starts with:
<<
    for file_path in task.files:
        try: ... file_contents.append(...)
        except FileNotFoundError: logger.warning(...)
>>
    [file_contents] is the list built so far. *)
Fixpoint read_files (paths : list string) (file_contents : list string)
  : M (list string) :=
  match paths with
  | [] => ret file_contents
  | file_path :: rest =>
      file_contents' <-
        try_except
          (content <- open_read file_path ;;
           ret (file_contents ++ [file_block file_path content])%list)
          is_FileNotFoundError
          (fun _ =>
             logger_warning ("File not found: " ++ file_path) ;;
             ret file_contents) ;;
      read_files rest file_contents'
  end.

(** [CodeReviewerAgent.process_task] *)
Definition CodeReviewerAgent_process_task (self : CodexAgent) (task : AgentTask)
  : M Dict :=
  file_contents <- read_files (files task) [] ;;
  system_prompt <- outcome (get_system_prompt self) ;;
  let prompt := CodeReviewerAgent_prompt system_prompt task file_contents in
  try_except
    (response_content <-
       chat_completions_create
         {| model := "gpt-4"; content := prompt; max_tokens := 2000;
            temperature := QArith_base.Qmake 1 10 |} ;;
     ret [ ("agent_type", VStr (value (agent_type self)));
           ("review", VStr response_content);
           ("files_reviewed", VList (files task));
           ("status", VStr "completed") ])
    is_Exception
    (fun e =>
       logger_error ("Code review failed: " ++ str e) ;;
       ret [ ("agent_type", VStr (value (agent_type self)));
             ("status", VStr "error");
             ("error", VStr (str e)) ]).

(** [DocumentationAgent.process_task] *)
Definition DocumentationAgent_process_task (self : CodexAgent) (task : AgentTask)
  : M Dict :=
  file_contents <- read_files (files task) [] ;;
  system_prompt <- outcome (get_system_prompt self) ;;
  let prompt := DocumentationAgent_prompt system_prompt task file_contents in
  try_except
    (response_content <-
       chat_completions_create
         {| model := "gpt-4"; content := prompt; max_tokens := 2500;
            temperature := QArith_base.Qmake 2 10 |} ;;
     ret [ ("agent_type", VStr (value (agent_type self)));
           ("documentation", VStr response_content);
           ("files_documented", VList (files task));
           ("status", VStr "completed") ])
    is_Exception
    (fun e =>
       logger_error ("Documentation generation failed: " ++ str e) ;;
       ret [ ("agent_type", VStr (value (agent_type self)));
             ("status", VStr "error");
             ("error", VStr (str e)) ]).

(** [TestingAgent.process_task] *)
Definition TestingAgent_process_task (self : CodexAgent) (task : AgentTask)
  : M Dict :=
  file_contents <- read_files (files task) [] ;;
  system_prompt <- outcome (get_system_prompt self) ;;
  let prompt := TestingAgent_prompt system_prompt task file_contents in
  try_except
    (response_content <-
       chat_completions_create
         {| model := "gpt-4"; content := prompt; max_tokens := 2500;
            temperature := QArith_base.Qmake 1 10 |} ;;
     ret [ ("agent_type", VStr (value (agent_type self)));
           ("tests", VStr response_content);
           ("files_tested", VList (files task));
           ("status", VStr "completed") ])
    is_Exception
    (fun e =>
       logger_error ("Test generation failed: " ++ str e) ;;
       ret [ ("agent_type", VStr (value (agent_type self)));
             ("status", VStr "error");
             ("error", VStr (str e)) ]).

(** [agent.process_task(task)]: the method of the agent's class. *)
Definition process_task (self : CodexAgent) (task : AgentTask) : M Dict :=
  match agent_class self with
  | CodeReviewerAgent => CodeReviewerAgent_process_task self task
  | DocumentationAgent => DocumentationAgent_process_task self task
  | TestingAgent => TestingAgent_process_task self task
  end.

(** [MultiAgentOrchestrator.__init__] *)
Definition MultiAgentOrchestrator_init (openai_api_key : option string)
  : M MultiAgentOrchestrator :=
  let self_api_key := or_ openai_api_key (os_getenv "OPENAI_API_KEY") in
  if negb (truthy self_api_key) then
    raise {| exn_class := ValueError;
             str := "OpenAI API key not found. Set OPENAI_API_KEY environment variable." |}
  else
    let self_client :=
      {| client_api_key := match self_api_key with Some k => k | None => "" end |} in
    reviewer <- CodeReviewerAgent_init self_client ;;
    documenter <- DocumentationAgent_init self_client ;;
    tester <- TestingAgent_init self_client ;;
    ret {| api_key := client_api_key self_client;
           orchestrator_client := self_client;
           agents := [ (CODE_REVIEWER, reviewer);
                       (DOCUMENTATION, documenter);
                       (TESTING, tester) ] |}.

(** The body of [for task in sorted_tasks:] in [process_workflow]; [results]
    is the list appended to so far.  [asyncio.sleep] does not raise, so the
    append that precedes it inside the [try] is never followed by a second
    append in the handler. *)
Definition process_workflow_body (self : MultiAgentOrchestrator)
    (task : AgentTask) (results : list Dict) : M (list Dict) :=
  match agents_get (task_type task) (agents self) with
  | Some agent =>
      logger_info ("Processing " ++ value (task_type task) ++ " task: "
                   ++ description task) ;;
      try_except
        (result <- process_task agent task ;;
         let results := (results ++ [result])%list in
         asyncio_sleep 1 ;;
         ret results)
        is_Exception
        (fun e =>
           logger_error ("Task failed: " ++ str e) ;;
           ret (results ++ [ [ ("agent_type", VStr (value (task_type task)));
                               ("status", VStr "error");
                               ("error", VStr (str e)) ] ])%list)
  | None =>
      logger_warning ("No agent available for task type: "
                      ++ value (task_type task)) ;;
      ret results
  end.

Fixpoint process_workflow_loop (self : MultiAgentOrchestrator)
    (sorted_tasks : list AgentTask) (results : list Dict) : M (list Dict) :=
  match sorted_tasks with
  | [] => ret results
  | task :: rest =>
      results' <- process_workflow_body self task results ;;
      process_workflow_loop self rest results'
  end.

Definition count_status (status : string) (results : list Dict) : nat :=
  List.length (filter (get_eq_str "status" status) results).

(** [MultiAgentOrchestrator.process_workflow] *)
Definition process_workflow (self : MultiAgentOrchestrator) (tasks : list AgentTask)
  : M WorkflowSummary :=
  let sorted_tasks := sorted priority true tasks in
  results <- process_workflow_loop self sorted_tasks [] ;;
  ret {| workflow_results := results;
         total_tasks := List.length tasks;
         completed_tasks := count_status "completed" results;
         failed_tasks := count_status "error" results |}.

(** [code_review_workflow], [documentation_workflow], [testing_workflow] *)
Definition code_review_workflow (self : MultiAgentOrchestrator)
    (file_paths : list string) : M WorkflowSummary :=
  process_workflow self
    [ {| task_type := CODE_REVIEWER;
         description := "Comprehensive code review for security, performance, and quality";
         context := [];
         files := file_paths;
         requirements := [ "Security vulnerability assessment";
                           "Performance optimization suggestions";
                           "Code quality improvements";
                           "Trading logic validation" ];
         priority := 1 |} ].

Definition documentation_workflow (self : MultiAgentOrchestrator)
    (file_paths : list string) : M WorkflowSummary :=
  process_workflow self
    [ {| task_type := DOCUMENTATION;
         description := "Generate comprehensive documentation";
         context := [];
         files := file_paths;
         requirements := [ "API documentation with examples";
                           "Function/class documentation";
                           "Usage examples";
                           "Configuration guides" ];
         priority := 1 |} ].

Definition testing_workflow (self : MultiAgentOrchestrator)
    (file_paths : list string) : M WorkflowSummary :=
  process_workflow self
    [ {| task_type := TESTING;
         description := "Generate comprehensive test suite";
         context := [];
         files := file_paths;
         requirements := [ "Unit tests with high coverage";
                           "Integration tests for APIs";
                           "Mock trading scenarios";
                           "Edge case testing" ];
         priority := 1 |} ].

End Program.

(* ===================================================================== *)
(** * Views used in the statements *)
(* ===================================================================== *)

(** The per-class literals of the three [process_task] methods. *)
Definition payload_field (c : AgentClass) : string :=
  match c with
  | CodeReviewerAgent => "review"
  | DocumentationAgent => "documentation"
  | TestingAgent => "tests"
  end.

Definition files_field (c : AgentClass) : string :=
  match c with
  | CodeReviewerAgent => "files_reviewed"
  | DocumentationAgent => "files_documented"
  | TestingAgent => "files_tested"
  end.

Definition failure_prefix (c : AgentClass) : string :=
  match c with
  | CodeReviewerAgent => "Code review failed: "
  | DocumentationAgent => "Documentation generation failed: "
  | TestingAgent => "Test generation failed: "
  end.

Definition class_prompt (c : AgentClass) (system_prompt : string) (task : AgentTask)
    (file_contents : list string) : string :=
  match c with
  | CodeReviewerAgent => CodeReviewerAgent_prompt system_prompt task file_contents
  | DocumentationAgent => DocumentationAgent_prompt system_prompt task file_contents
  | TestingAgent => TestingAgent_prompt system_prompt task file_contents
  end.

Definition class_request (c : AgentClass) (prompt : string) : ChatRequest :=
  {| model := "gpt-4";
     content := prompt;
     max_tokens := match c with
                   | CodeReviewerAgent => 2000
                   | _ => 2500
                   end;
     temperature := match c with
                    | DocumentationAgent => QArith_base.Qmake 2 10
                    | _ => QArith_base.Qmake 1 10
                    end |}.

(** The prompt an agent builds for a task from the blocks read, and the
    request it then sends; building the prompt raises when the system prompt
    does. *)
Definition agent_prompt (self : CodexAgent) (task : AgentTask)
    (file_contents : list string) : Outcome string :=
  match get_system_prompt self with
  | Returns system_prompt =>
      Returns (class_prompt (agent_class self) system_prompt task file_contents)
  | Raises e => Raises e
  end.

Definition agent_request (self : CodexAgent) (task : AgentTask)
    (file_contents : list string) : Outcome ChatRequest :=
  match agent_prompt self task file_contents with
  | Returns prompt => Returns (class_request (agent_class self) prompt)
  | Raises e => Raises e
  end.

(** The two shapes of result dictionaries. *)
Definition completed_record (c : AgentClass) (category : AgentType)
    (payload : string) (paths : list string) : Dict :=
  [ ("agent_type", VStr (value category));
    (payload_field c, VStr payload);
    (files_field c, VList paths);
    ("status", VStr "completed") ].

Definition error_record (category : AgentType) (message : string) : Dict :=
  [ ("agent_type", VStr (value category));
    ("status", VStr "error");
    ("error", VStr message) ].

(** The class [__init__] registers for a category. *)
Definition registered_class (category : AgentType) : option AgentClass :=
  match category with
  | CODE_REVIEWER => Some CodeReviewerAgent
  | DOCUMENTATION => Some DocumentationAgent
  | TESTING => Some TestingAgent
  | _ => None
  end.


Definition read_fails (w : World) (path : string) : bool :=
  match read_text w path with
  | Raises e => negb (is_FileNotFoundError e)
  | Returns _ => false
  end.


(** The blocks of the files that could be read, in order. *)
Fixpoint present_blocks (w : World) (paths : list string) : list string :=
  match paths with
  | [] => []
  | p :: rest =>
      match read_text w p with
      | Returns c => file_block p c :: present_blocks w rest
      | Raises _ => present_blocks w rest
      end
  end.

Definition missing_warning (path : string) : Event :=
  Log WARNING ("File not found: " ++ path).

Definition processing_event (task : AgentTask) : Event :=
  Log INFO ("Processing " ++ value (task_type task) ++ " task: " ++ description task).

Definition task_failed_event (e : Exn) : Event :=
  Log ERROR ("Task failed: " ++ str e).

Definition is_sleep (ev : Event) : bool :=
  match ev with
  | Sleep _ => true
  | _ => false
  end.

Definition is_warning (ev : Event) : bool :=
  match ev with
  | Log WARNING _ => true
  | _ => false
  end.

Definition is_completion (ev : Event) : bool :=
  match ev with
  | Completion _ => true
  | _ => false
  end.

Definition sleeps (trace : list Event) : list Event := filter is_sleep trace.
Definition completions (trace : list Event) : list Event := filter is_completion trace.

(** Does some entry of the dictionary hold the list [paths]? *)
Definition holds_list (paths : list string) (d : Dict) : bool :=
  existsb (fun kv => match snd kv with
                     | VList l => if list_eq_dec string_dec l paths then true else false
                     | VStr _ => false
                     end) d.

Definition has_key (k : string) (d : Dict) : bool :=
  match get k d with
  | Some _ => true
  | None => false
  end.

(** A record with the four parts the data model lists for a [ResultRecord]:
    category, status, payload or error message, echo of the file list. *)
Definition full_record (task : AgentTask) (d : Dict) : bool :=
  has_key "agent_type" d
  && (get_eq_str "status" "completed" d || get_eq_str "status" "error" d)
  && (has_key "review" d || has_key "documentation" d || has_key "tests" d
      || has_key "error" d)
  && holds_list (files task) d.

(** The record [d] answers [task]: it carries the task's category, its status
    is [completed] or [error], and a completed record echoes the task's
    files. *)
Definition record_for (task : AgentTask) (d : Dict) : Prop :=
  get "agent_type" d = Some (VStr (value (task_type task)))
  /\ (get_eq_str "status" "completed" d = true /\ get_eq_str "status" "error" d = false
        /\ holds_list (files task) d = true
      \/ get_eq_str "status" "completed" d = false /\ get_eq_str "status" "error" d = true).

Definition priority_eqb (p : Z) (task : AgentTask) : bool := (priority task =? p)%Z.

(** The value [self.api_key] gets in [__init__]. *)
Definition credential (w : World) (openai_api_key : option string) : option string :=
  or_ openai_api_key (getenv w "OPENAI_API_KEY").

(** The registry [__init__] builds from a client and the loaded context. *)
Definition registry (c : AsyncOpenAI) (ctx : Context) : list (AgentType * CodexAgent) :=
  [ (CODE_REVIEWER, {| agent_class := CodeReviewerAgent; agent_type := CODE_REVIEWER;
                       client := c; project_context := ctx |});
    (DOCUMENTATION, {| agent_class := DocumentationAgent; agent_type := DOCUMENTATION;
                       client := c; project_context := ctx |});
    (TESTING, {| agent_class := TestingAgent; agent_type := TESTING;
                 client := c; project_context := ctx |}) ].

Definition orchestrator (k : string) (ctx : Context) : MultiAgentOrchestrator :=
  {| api_key := k;
     orchestrator_client := {| client_api_key := k |};
     agents := registry {| client_api_key := k |} ctx |}.

Definition context_warning : Event :=
  Log WARNING "Context file not found. Run .codex/setup.py first.".

(** The record one iteration of the workflow loop appends for a task handled
    by [agent], started after [n] completion calls. *)
Definition appended_record (w : World) (agent : CodexAgent) (task : AgentTask)
    (n : nat) : Dict :=
  match result (process_task w agent task n) with
  | Returns d => d
  | Raises e => error_record (task_type task) (str e)
  end.

(** A record of one of the two shapes, for a task of a registered category. *)
Definition shaped_record (task : AgentTask) (d : Dict) : Prop :=
  exists c, registered_class (task_type task) = Some c
  /\ ((exists payload, d = completed_record c (task_type task) payload (files task))
      \/ (exists message, d = error_record (task_type task) message)).

(** The status of a record is exactly one of [completed] and [error]. *)
Definition settled (d : Dict) : Prop :=
  get_eq_str "status" "completed" d = true /\ get_eq_str "status" "error" d = false
  \/ get_eq_str "status" "completed" d = false /\ get_eq_str "status" "error" d = true.

Definition is_task_failed (ev : Event) : bool :=
  match ev with
  | Log ERROR message => String.eqb (substring 0 13 message) "Task failed: "
  | _ => false
  end.

(** The parts actually found in a record made for [task]: the category and,
    either status [completed] with the payload and the file list under the
    category's fields, or status [error] with the message and nothing else. *)
Definition record_parts (task : AgentTask) (d : Dict) : Prop :=
  get "agent_type" d = Some (VStr (value (task_type task)))
  /\ (get "status" d = Some (VStr "completed")
      /\ (exists c payload,
             registered_class (task_type task) = Some c
             /\ get (payload_field c) d = Some (VStr payload)
             /\ get (files_field c) d = Some (VList (files task)))
      /\ full_record task d = true
      \/
      get "status" d = Some (VStr "error")
      /\ (exists message, get "error" d = Some (VStr message))
      /\ map fst d = ["agent_type"; "status"; "error"]
      /\ full_record task d = false).


(** The exception [__init__] raises when it finds no key. *)
Definition missing_key_error : Exn :=
  {| exn_class := ValueError;
     str := "OpenAI API key not found. Set OPENAI_API_KEY environment variable." |}.

(* ===================================================================== *)
(** * Sample worlds and tasks *)
(* ===================================================================== *)

Definition FileNotFound (path : string) : Exn :=
  {| exn_class := FileNotFoundError;
     str := "[Errno 2] No such file or directory: '" ++ path ++ "'" |}.

Definition PermissionDenied (path : string) : Exn :=
  {| exn_class := OtherException "PermissionError";
     str := "[Errno 13] Permission denied: '" ++ path ++ "'" |}.

Definition ConnectionError : Exn :=
  {| exn_class := OtherException "APIConnectionError"; str := "Connection error." |}.

Definition JSONDecodeError : Exn :=
  {| exn_class := OtherException "JSONDecodeError";
     str := "Expecting value: line 1 column 1 (char 0)" |}.

(** [bot.py] can be read, [locked.py] exists but may not be opened, nothing
    else exists; [context.json] is absent; the key is in the environment; the
    first completion call succeeds and the later ones fail. *)
Definition sample_world : World :=
  {| getenv := fun name => if String.eqb name "OPENAI_API_KEY" then Some "sk-test" else None;
     read_text := fun path =>
       if String.eqb path "bot.py" then Returns "print(1)"
       else if String.eqb path "locked.py" then Raises (PermissionDenied path)
       else Raises (FileNotFound path);
     load_context_json := Raises (FileNotFound "context.json");
     chat_completion := fun n _ =>
       match n with
       | O => Returns "LGTM"
       | S _ => Raises ConnectionError
       end |}.

(** The same files, with an endpoint that cannot be reached at all. *)
Definition offline_world : World :=
  {| getenv := getenv sample_world;
     read_text := read_text sample_world;
     load_context_json := load_context_json sample_world;
     chat_completion := fun _ _ => Raises ConnectionError |}.

(** No key in the environment. *)
Definition keyless_world : World :=
  {| getenv := fun _ => None;
     read_text := read_text sample_world;
     load_context_json := load_context_json sample_world;
     chat_completion := chat_completion sample_world |}.

(** The key is set but empty. *)
Definition empty_key_world : World :=
  {| getenv := fun name => if String.eqb name "OPENAI_API_KEY" then Some "" else None;
     read_text := read_text sample_world;
     load_context_json := load_context_json sample_world;
     chat_completion := chat_completion sample_world |}.

(** [context.json] exists but does not hold JSON. *)
Definition broken_context_world : World :=
  {| getenv := getenv sample_world;
     read_text := read_text sample_world;
     load_context_json := Raises JSONDecodeError;
     chat_completion := chat_completion sample_world |}.

Definition sample_task (category : AgentType) (name : string) (paths : list string)
    (p : Z) : AgentTask :=
  {| task_type := category;
     description := name;
     context := [];
     files := paths;
     requirements := ["Trading logic validation"];
     priority := p |}.

Definition sample_client : AsyncOpenAI := {| client_api_key := "sk-test" |}.

Definition sample_agent (c : AgentClass) (category : AgentType) : CodexAgent :=
  {| agent_class := c;
     agent_type := category;
     client := sample_client;
     project_context := JsonObject [] |}.

(** The orchestrator [__init__] builds in [sample_world]. *)
Definition sample_orchestrator : MultiAgentOrchestrator :=
  {| api_key := "sk-test";
     orchestrator_client := sample_client;
     agents := [ (CODE_REVIEWER, sample_agent CodeReviewerAgent CODE_REVIEWER);
                 (DOCUMENTATION, sample_agent DocumentationAgent DOCUMENTATION);
                 (TESTING, sample_agent TestingAgent TESTING) ] |}.

Definition reviewer : CodexAgent := sample_agent CodeReviewerAgent CODE_REVIEWER.

(** A review of the readable file, of the unreadable one, of a present and a
    missing one, and of a missing and an unreadable one. *)
Definition review_bot : AgentTask := sample_task CODE_REVIEWER "A" ["bot.py"] 1.
Definition review_locked : AgentTask := sample_task CODE_REVIEWER "B" ["locked.py"] 5.
Definition review_partial : AgentTask :=
  sample_task CODE_REVIEWER "C" ["bot.py"; "ghost.py"] 3.
Definition review_ghost_locked : AgentTask :=
  sample_task CODE_REVIEWER "D" ["ghost.py"; "locked.py"] 1.
Definition audit_bot : AgentTask := sample_task SECURITY "E" ["bot.py"] 9.
Definition document_bot : AgentTask := sample_task DOCUMENTATION "F" ["bot.py"] 1.

(* ===================================================================== *)
(** * The command line *)
(* ===================================================================== *)

(** The values [--workflow] accepts ([choices=[...]]). *)
Inductive WorkflowChoice : Type := review | docs | test.

Definition choice_name (c : WorkflowChoice) : string :=
  match c with
  | review => "review"
  | docs => "docs"
  | test => "test"
  end.

(** What [parser.parse_args()] returns: [args.workflow], [args.files],
    [args.output]. *)
Record Namespace : Type := {
  args_workflow : WorkflowChoice;
  args_files : list string;
  args_output : option string
}.

(** The dictionary [output_data]. *)
Record OutputData : Type := {
  workflow_type : string;
  timestamp : string;
  results : WorkflowSummary
}.

(** A call of [print]: the JSON text of the data, or a line of text. *)
Inductive Printed : Type :=
| PrintJson (data : OutputData)
| PrintLine (line : string).

(** What [main] needs beyond the [World]: the text of
    [str(asyncio.get_event_loop().time())], what
    [with open(path, 'w') as f: json.dump(data, f, indent=2)] does, and what
    [print] does (it raises on a closed pipe, for one). *)
Record Console : Type := {
  loop_time : string;
  write_json : string -> OutputData -> Outcome unit;
  print : Printed -> Outcome unit
}.

(** What a run of [main] leaves behind: the value it returns (the module's
    last line, [asyncio.run(main())], does not pass it on), the calls of
    [print] that completed and the file whose writing completed. *)
Record MainReport : Type := {
  return_value : Z;
  printed : list Printed;
  saved : option (string * OutputData)
}.

(** The end of the [try] block of [main], from [if args.output:] on: the
    calls of [print] that completed, or the exception raised, and the file
    saved by then. *)
Definition main_output (console : Console) (args : Namespace) (output_data : OutputData)
  : Outcome (list Printed) * option (string * OutputData) :=
  if truthy (args_output args) then
    let path := match args_output args with Some path => path | None => "" end in
    match write_json console path output_data with
    | Returns _ =>
        match print console (PrintLine ("Results saved to: " ++ path)) with
        | Returns _ =>
            (Returns [PrintLine ("Results saved to: " ++ path)], Some (path, output_data))
        | Raises e => (Raises e, Some (path, output_data))
        end
    | Raises e => (Raises e, None)
    end
  else
    match print console (PrintJson output_data) with
    | Returns _ => (Returns [PrintJson output_data], None)
    | Raises e => (Raises e, None)
    end.

(** The handler of [main]: [logger.error(...)], [return 1]. *)
Definition main_failed (e : Exn) (saved_so_far : option (string * OutputData))
  : M MainReport :=
  logger_error ("Workflow failed: " ++ str e) ;;
  ret {| return_value := 1; printed := []; saved := saved_so_far |}.

(** [async def main()], from the parsed arguments on.  An exception of the
    output stage reaches the handler together with what was saved before
    it. *)
Definition main (w : World) (console : Console) (args : Namespace) : M MainReport :=
  try_except
    (orchestrator <- MultiAgentOrchestrator_init w None ;;
     results <- match args_workflow args with
                | review => code_review_workflow w orchestrator (args_files args)
                | docs => documentation_workflow w orchestrator (args_files args)
                | test => testing_workflow w orchestrator (args_files args)
                end ;;
     let output_data :=
       {| workflow_type := choice_name (args_workflow args);
          timestamp := loop_time console;
          results := results |} in
     match main_output console args output_data with
     | (Returns lines, saved_so_far) =>
         ret {| return_value := 0; printed := lines; saved := saved_so_far |}
     | (Raises e, saved_so_far) => main_failed e saved_so_far
     end)
    is_Exception
    (fun e => main_failed e None).

(** The category a choice of workflow is about. *)
Definition choice_category (c : WorkflowChoice) : AgentType :=
  match c with
  | review => CODE_REVIEWER
  | docs => DOCUMENTATION
  | test => TESTING
  end.

(* ===================================================================== *)
(** * Further views *)
(* ===================================================================== *)


(** The exception of the first path whose read fails for another reason than
    not-found. *)
Fixpoint first_read_failure (w : World) (paths : list string) : option Exn :=
  match paths with
  | [] => None
  | p :: rest =>
      match read_text w p with
      | Returns _ => first_read_failure w rest
      | Raises e => if is_FileNotFoundError e then first_read_failure w rest else Some e
      end
  end.

(** The completion requests and the sleeps of a trace, in order. *)
Definition is_paced (ev : Event) : bool := is_completion ev || is_sleep ev.

Definition pacing (trace : list Event) : list Event := filter is_paced trace.

Definition call_then_sleep (request : ChatRequest) : list Event :=
  [Completion request; Sleep 1].

(** The [logger.info] records of a trace. *)
Definition is_info (ev : Event) : bool :=
  match ev with
  | Log INFO _ => true
  | _ => false
  end.

Definition infos (trace : list Event) : list Event := filter is_info trace.

(** The records the loop appends for the tasks of a list, in order: for each
    task that has an agent, the record [process_task] returns for it, or the
    orchestrator's error record when it raises; the first task is started
    after [n] completion calls, each later one after the calls made by
    then. *)
Fixpoint workflow_records (w : World) (self : MultiAgentOrchestrator)
    (l : list AgentTask) (n : nat) : list Dict :=
  match l with
  | [] => []
  | task :: rest =>
      match agents_get (task_type task) (agents self) with
      | Some agent =>
          appended_record w agent task n
          :: workflow_records w self rest (calls (process_task w agent task n))
      | None => workflow_records w self rest n
      end
  end.

(** No file of the task fails to be read for another reason than not-found. *)
Definition readable_or_missing (w : World) (task : AgentTask) : bool :=
  forallb (fun p => negb (read_fails w p)) (files task).

(** The request a task leads to: the one its agent builds from the present
    files, when the task has an agent, its files can be read or are missing
    and the prompt can be built. *)
Definition task_request (w : World) (self : MultiAgentOrchestrator) (task : AgentTask)
  : option ChatRequest :=
  match agents_get (task_type task) (agents self) with
  | Some agent =>
      if readable_or_missing w task then
        match agent_request agent task (present_blocks w (files task)) with
        | Returns request => Some request
        | Raises _ => None
        end
      else None
  | None => None
  end.

Definition leads_to_request (w : World) (self : MultiAgentOrchestrator)
    (task : AgentTask) : bool :=
  match task_request w self task with
  | Some _ => true
  | None => false
  end.

Definition workflow_requests (w : World) (self : MultiAgentOrchestrator)
    (l : list AgentTask) : list ChatRequest :=
  flat_map (fun task => match task_request w self task with
                        | Some request => [request]
                        | None => []
                        end) l.

(** The tasks the three convenience workflows build. *)
Definition code_review_task (file_paths : list string) : AgentTask :=
  {| task_type := CODE_REVIEWER;
     description := "Comprehensive code review for security, performance, and quality";
     context := [];
     files := file_paths;
     requirements := [ "Security vulnerability assessment";
                       "Performance optimization suggestions";
                       "Code quality improvements";
                       "Trading logic validation" ];
     priority := 1 |}.

Definition documentation_task (file_paths : list string) : AgentTask :=
  {| task_type := DOCUMENTATION;
     description := "Generate comprehensive documentation";
     context := [];
     files := file_paths;
     requirements := [ "API documentation with examples";
                       "Function/class documentation";
                       "Usage examples";
                       "Configuration guides" ];
     priority := 1 |}.

Definition testing_task (file_paths : list string) : AgentTask :=
  {| task_type := TESTING;
     description := "Generate comprehensive test suite";
     context := [];
     files := file_paths;
     requirements := [ "Unit tests with high coverage";
                       "Integration tests for APIs";
                       "Mock trading scenarios";
                       "Edge case testing" ];
     priority := 1 |}.

Definition choice_task (c : WorkflowChoice) (file_paths : list string) : AgentTask :=
  match c with
  | review => code_review_task file_paths
  | docs => documentation_task file_paths
  | test => testing_task file_paths
  end.

(** A console on which saving works, and one on which it does not. *)
Definition sample_console : Console :=
  {| loop_time := "12345.678";
     write_json := fun _ _ => Returns tt;
     print := fun _ => Returns tt |}.

Definition BrokenPipe : Exn :=
  {| exn_class := OtherException "BrokenPipeError"; str := "[Errno 32] Broken pipe" |}.

(** Writing works, but nobody reads what is printed. *)
Definition closed_pipe_console : Console :=
  {| loop_time := "12345.678";
     write_json := fun _ _ => Returns tt;
     print := fun _ => Raises BrokenPipe |}.

(** [context.json] holds a JSON list. *)
Definition list_context_world : World :=
  {| getenv := getenv sample_world;
     read_text := read_text sample_world;
     load_context_json := Returns (JsonOther "list");
     chat_completion := chat_completion sample_world |}.

(** The orchestrator [__init__] builds in [list_context_world]. *)
Definition list_context_orchestrator : MultiAgentOrchestrator :=
  {| api_key := "sk-test";
     orchestrator_client := {| client_api_key := "sk-test" |};
     agents :=
       [ (CODE_REVIEWER, {| agent_class := CodeReviewerAgent; agent_type := CODE_REVIEWER;
                            client := {| client_api_key := "sk-test" |};
                            project_context := JsonOther "list" |});
         (DOCUMENTATION, {| agent_class := DocumentationAgent; agent_type := DOCUMENTATION;
                            client := {| client_api_key := "sk-test" |};
                            project_context := JsonOther "list" |});
         (TESTING, {| agent_class := TestingAgent; agent_type := TESTING;
                      client := {| client_api_key := "sk-test" |};
                      project_context := JsonOther "list" |}) ] |}.

(* ===================================================================== *)
(** * The sort *)
(* ===================================================================== *)

Unset Implicit Arguments.

Section SortFacts.

Variable A : Type.
Variable key : A -> Z.

Let ascending (x y : A) : Prop := (key x <= key y)%Z.
Let descending (x y : A) : Prop := (key x >= key y)%Z.

Lemma insert_perm (x : A) (l : list A) : Permutation (insert key x l) (x :: l).
Proof.
  induction l as [|y l IH]; simpl.
  - reflexivity.
  - destruct (key y <? key x)%Z.
    + rewrite IH. apply perm_swap.
    + reflexivity.
Qed.

Lemma sort_ascending_perm (l : list A) : Permutation (sort_ascending key l) l.
Proof.
  induction l as [|x l IH]; simpl.
  - reflexivity.
  - rewrite insert_perm. now constructor.
Qed.

Lemma insert_sorted (x : A) (l : list A) :
  StronglySorted ascending l -> StronglySorted ascending (insert key x l).
Proof.
  induction 1 as [|y l Hl IH Hy]; simpl.
  - repeat constructor.
  - destruct (key y <? key x)%Z eqn:E.
    + constructor; [exact IH|].
      rewrite (Forall_forall (ascending y)).
      intros z Hz.
      apply (Permutation_in _ (insert_perm x l)) in Hz.
      destruct Hz as [<-|Hz].
      * unfold ascending. apply Z.ltb_lt in E. lia.
      * rewrite Forall_forall in Hy. now apply Hy.
    + apply Z.ltb_ge in E.
      constructor; [now constructor|].
      constructor; [exact E|].
      eapply Forall_impl; [|exact Hy].
      intros z Hz. unfold ascending in *. lia.
Qed.

Lemma sort_ascending_sorted (l : list A) :
  StronglySorted ascending (sort_ascending key l).
Proof.
  induction l as [|x l IH]; simpl.
  - constructor.
  - now apply insert_sorted.
Qed.

(** Insertion never moves [x] past an element with the same key. *)
Lemma insert_filter (f : Z -> bool) (x : A) (l : list A) :
  (forall y, (key y < key x)%Z -> f (key y) = true -> f (key x) = false) ->
  filter (fun a => f (key a)) (insert key x l)
  = filter (fun a => f (key a)) (x :: l).
Proof.
  intros Hsep.
  induction l as [|y l IH]; [reflexivity|].
  simpl insert.
  destruct (key y <? key x)%Z eqn:E; [|reflexivity].
  apply Z.ltb_lt in E.
  change (filter (fun a => f (key a)) (y :: insert key x l))
    with (if f (key y) then y :: filter (fun a => f (key a)) (insert key x l)
          else filter (fun a => f (key a)) (insert key x l)).
  rewrite IH. simpl.
  destruct (f (key y)) eqn:Ey; [|reflexivity].
  now rewrite (Hsep y E Ey).
Qed.

Lemma sort_ascending_stable (p : Z) (l : list A) :
  filter (fun a => key a =? p)%Z (sort_ascending key l)
  = filter (fun a => key a =? p)%Z l.
Proof.
  induction l as [|x l IH]; [reflexivity|].
  simpl sort_ascending.
  rewrite (insert_filter (fun k => k =? p)%Z).
  - simpl. now rewrite IH.
  - intros y Hlt Hy. apply Z.eqb_eq in Hy. apply Z.eqb_neq. lia.
Qed.

Lemma StronglySorted_app (R : A -> A -> Prop) (l1 l2 : list A) :
  StronglySorted R l1 -> StronglySorted R l2 ->
  (forall x y, In x l1 -> In y l2 -> R x y) ->
  StronglySorted R (l1 ++ l2).
Proof.
  intros H1 H2 H12.
  induction H1 as [|x l1 Hl1 IH Hx]; simpl; [exact H2|].
  constructor.
  - apply IH. intros a b Ha Hb. apply H12; [now right|exact Hb].
  - apply Forall_app. split; [exact Hx|].
    apply Forall_forall. intros b Hb. apply H12; [now left|exact Hb].
Qed.

Lemma StronglySorted_rev (l : list A) :
  StronglySorted ascending l -> StronglySorted descending (rev l).
Proof.
  induction 1 as [|x l Hl IH Hx]; simpl.
  - constructor.
  - apply StronglySorted_app.
    + exact IH.
    + repeat constructor.
    + intros a b Ha [<-|[]].
      apply In_rev in Ha.
      rewrite Forall_forall in Hx. specialize (Hx a Ha).
      unfold ascending, descending in *. lia.
Qed.

Lemma filter_rev (f : A -> bool) (l : list A) :
  filter f (rev l) = rev (filter f l).
Proof.
  induction l as [|x l IH]; [reflexivity|].
  simpl. rewrite filter_app, IH. simpl.
  destruct (f x); simpl; [reflexivity|now rewrite app_nil_r].
Qed.

(** [sorted(..., reverse=True)] permutes its input, ... *)
Lemma sorted_reverse_perm (l : list A) : Permutation (sorted key true l) l.
Proof.
  unfold sorted.
  rewrite <- Permutation_rev, sort_ascending_perm.
  symmetry. apply Permutation_rev.
Qed.

(** ... puts larger keys first, ... *)
Lemma sorted_reverse_descending (l : list A) :
  StronglySorted (fun x y => key x >= key y)%Z (sorted key true l).
Proof.
  unfold sorted. apply StronglySorted_rev, sort_ascending_sorted.
Qed.

(** ... and keeps elements of equal key in their input order. *)
Lemma sorted_reverse_stable (p : Z) (l : list A) :
  filter (fun a => key a =? p)%Z (sorted key true l)
  = filter (fun a => key a =? p)%Z l.
Proof.
  unfold sorted.
  rewrite filter_rev, sort_ascending_stable, filter_rev.
  apply rev_involutive.
Qed.

End SortFacts.

(* ===================================================================== *)
(** * Runs of the agents *)
(* ===================================================================== *)

Lemma Returns_inj {A : Type} (a b : A) : Returns a = Returns b -> a = b.
Proof. now intros [= H]. Qed.

Ltac run_step :=
  cbv beta delta [bind try_except ret raise emit outcome logger_info logger_warning
                  logger_error asyncio_sleep open_read chat_completions_create
                  is_Exception];
  cbn [result emitted calls app].

Section AgentRuns.

Variable w : World.

Lemma read_files_cons (p : string) (rest acc : list string) (n : nat) :
  read_files w (p :: rest) acc n =
  match read_text w p with
  | Returns c => read_files w rest (acc ++ [file_block p c])%list n
  | Raises e =>
      if is_FileNotFoundError e then
        let r := read_files w rest acc n in
        {| result := result r;
           emitted := missing_warning p :: emitted r;
           calls := calls r |}
      else {| result := Raises e; emitted := []; calls := n |}
  end.
Proof.
  cbn [read_files]. run_step.
  destruct (read_text w p) as [c|e]; run_step.
  - now destruct (read_files w rest (acc ++ [file_block p c])%list n).
  - destruct (is_FileNotFoundError e); run_step; reflexivity.
Qed.

(** Reading files makes no completion call and logs nothing but warnings. *)
Lemma read_files_calls (paths acc : list string) (n : nat) :
  calls (read_files w paths acc n) = n.
Proof.
  revert acc. induction paths as [|p rest IH]; intros acc; [reflexivity|].
  rewrite read_files_cons.
  destruct (read_text w p) as [c|e]; [apply IH|].
  destruct (is_FileNotFoundError e); [apply IH|reflexivity].
Qed.

Lemma read_files_emits_warnings (paths acc : list string) (n : nat) :
  Forall (fun ev => is_warning ev = true) (emitted (read_files w paths acc n)).
Proof.
  revert acc. induction paths as [|p rest IH]; intros acc; [constructor|].
  rewrite read_files_cons.
  destruct (read_text w p) as [c|e]; [apply IH|].
  destruct (is_FileNotFoundError e); [|constructor].
  constructor; [reflexivity|apply IH].
Qed.


(** An exception leaving the loop is a read failure of one of the paths
    that is not a not-found. *)
Lemma read_files_raises (paths acc : list string) (n : nat) (e : Exn) :
  result (read_files w paths acc n) = Raises e ->
  exists p, In p paths /\ read_text w p = Raises e /\ is_FileNotFoundError e = false.
Proof.
  revert acc. induction paths as [|p rest IH]; intros acc; [discriminate|].
  rewrite read_files_cons.
  destruct (read_text w p) as [c|e'] eqn:Hp.
  - intros H. destruct (IH _ H) as (q & Hq & Hr). exists q. split; [now right|exact Hr].
  - destruct (is_FileNotFoundError e') eqn:Hfnf.
    + cbn [result]. intros H.
      destruct (IH _ H) as (q & Hq & Hr). exists q. split; [now right|exact Hr].
    + cbn [result]. intros [= <-]. exists p. repeat split; [now left|exact Hp|exact Hfnf].
Qed.

(** The run of [process_task], whatever the agent's class. *)
Lemma process_task_run (self : CodexAgent) (task : AgentTask) (n : nat) :
  process_task w self task n =
  let r := read_files w (files task) [] n in
  match result r with
  | Raises e => {| result := Raises e; emitted := emitted r; calls := calls r |}
  | Returns file_contents =>
      match agent_request self task file_contents with
      | Raises e => {| result := Raises e; emitted := emitted r; calls := calls r |}
      | Returns request =>
          match chat_completion w (calls r) request with
          | Returns payload =>
              {| result := Returns (completed_record (agent_class self) (agent_type self)
                                      payload (files task));
                 emitted := (emitted r ++ [Completion request])%list;
                 calls := S (calls r) |}
          | Raises e =>
              {| result := Returns (error_record (agent_type self) (str e));
                 emitted := (emitted r
                             ++ [Completion request;
                                 Log ERROR (failure_prefix (agent_class self) ++ str e)%string])%list;
                 calls := S (calls r) |}
          end
      end
  end.
Proof.
  unfold process_task, agent_request, agent_prompt, class_prompt, class_request,
    completed_record, error_record.
  destruct (agent_class self);
    unfold CodeReviewerAgent_process_task, DocumentationAgent_process_task,
           TestingAgent_process_task;
    run_step;
    destruct (result (read_files w (files task) [] n)) as [fc|e]; try reflexivity;
    run_step;
    destruct (get_system_prompt self) as [system_prompt|e]; run_step;
    try (now rewrite app_nil_r);
    match goal with
    | |- context [chat_completion w ?k ?req] =>
        destruct (chat_completion w k req) as [payload|e]
    end; reflexivity.
Qed.

(** [process_task] makes at most one completion call, and never sleeps. *)
Lemma process_task_no_sleep (self : CodexAgent) (task : AgentTask) (n : nat) :
  sleeps (emitted (process_task w self task n)) = [].
Proof.
  rewrite process_task_run. cbv zeta.
  pose proof (read_files_emits_warnings (files task) [] n) as Hw.
  assert (Hs : sleeps (emitted (read_files w (files task) [] n)) = []).
  { unfold sleeps. induction Hw as [|ev l Hev _ IH]; [reflexivity|].
    cbn. destruct ev as [[]| |]; try discriminate Hev. exact IH. }
  destruct (result (read_files w (files task) [] n)) as [fc|e]; [|exact Hs].
  destruct (agent_request self task fc) as [request|e]; [|exact Hs].
  destruct (chat_completion w _ request); cbn [emitted]; unfold sleeps in *;
    rewrite filter_app, Hs; reflexivity.
Qed.

(** An exception leaving [process_task] comes from reading a file or from
    building the prompt, and no completion call has been made by then. *)
Lemma process_task_raises (self : CodexAgent) (task : AgentTask) (n : nat) (e : Exn) :
  result (process_task w self task n) = Raises e ->
  calls (process_task w self task n) = n
  /\ (result (read_files w (files task) [] n) = Raises e
      \/ get_system_prompt self = Raises e).
Proof.
  rewrite process_task_run. cbv zeta.
  destruct (result (read_files w (files task) [] n)) as [fc|e'].
  - unfold agent_request, agent_prompt.
    destruct (get_system_prompt self) as [system_prompt|e'].
    + destruct (chat_completion w _ _); discriminate.
    + cbn [result calls]. intros [= <-]. split; [apply read_files_calls|now right].
  - cbn [result calls]. intros [= <-]. split; [apply read_files_calls|now left].
Qed.

(** The run of the loop body of [process_workflow]. *)
Lemma process_workflow_body_run (self : MultiAgentOrchestrator) (task : AgentTask)
    (results : list Dict) (n : nat) :
  process_workflow_body w self task results n =
  match agents_get (task_type task) (agents self) with
  | Some agent =>
      let r := process_task w agent task n in
      match result r with
      | Returns d =>
          {| result := Returns (results ++ [d])%list;
             emitted := (processing_event task :: emitted r ++ [Sleep 1])%list;
             calls := calls r |}
      | Raises e =>
          {| result := Returns (results ++ [error_record (task_type task) (str e)])%list;
             emitted := (processing_event task :: emitted r ++ [task_failed_event e])%list;
             calls := calls r |}
      end
  | None =>
      {| result := Returns results;
         emitted := [Log WARNING ("No agent available for task type: "
                                  ++ value (task_type task))];
         calls := n |}
  end.
Proof.
  unfold process_workflow_body.
  destruct (agents_get (task_type task) (agents self)) as [agent|]; [|reflexivity].
  run_step. unfold processing_event, task_failed_event, error_record.
  destruct (result (process_task w agent task n)) as [d|e]; reflexivity.
Qed.

End AgentRuns.

(* ===================================================================== *)
(** * Runs of the orchestrator *)
(* ===================================================================== *)

Section Construction.

Variable w : World.

Lemma load_project_context_run :
  load_project_context w =
  fun n =>
    match load_context_json w with
    | Returns ctx => {| result := Returns ctx; emitted := []; calls := n |}
    | Raises e =>
        if is_FileNotFoundError e
        then {| result := Returns (JsonObject []);
                emitted := [context_warning]; calls := n |}
        else {| result := Raises e; emitted := []; calls := n |}
    end.
Proof.
  unfold load_project_context, open_json_load, try_except.
  destruct (load_context_json w) as [ctx|e]; [reflexivity|].
  cbn [result]. destruct (is_FileNotFoundError e); reflexivity.
Qed.

(** The run of the constructor: the credential check comes first, then the
    three agents each load the project context. *)
Lemma MultiAgentOrchestrator_init_run (openai_api_key : option string) (n : nat) :
  MultiAgentOrchestrator_init w openai_api_key n =
  match credential w openai_api_key with
  | Some k =>
      if String.eqb k "" then
        {| result := Raises {| exn_class := ValueError;
                               str := "OpenAI API key not found. Set OPENAI_API_KEY environment variable." |};
           emitted := []; calls := n |}
      else
        match load_context_json w with
        | Returns ctx =>
            {| result := Returns (orchestrator k ctx); emitted := []; calls := n |}
        | Raises e =>
            if is_FileNotFoundError e
            then {| result := Returns (orchestrator k (JsonObject []));
                    emitted := [context_warning; context_warning; context_warning];
                    calls := n |}
            else {| result := Raises e; emitted := []; calls := n |}
        end
  | None =>
      {| result := Raises {| exn_class := ValueError;
                             str := "OpenAI API key not found. Set OPENAI_API_KEY environment variable." |};
         emitted := []; calls := n |}
  end.
Proof.
  unfold MultiAgentOrchestrator_init, credential, os_getenv.
  destruct (or_ openai_api_key (getenv w "OPENAI_API_KEY")) as [k|];
    cbn [truthy negb]; [|reflexivity].
  destruct (String.eqb k ""); cbn [negb]; [reflexivity|].
  unfold CodeReviewerAgent_init, DocumentationAgent_init, TestingAgent_init,
    CodexAgent_init.
  rewrite load_project_context_run.
  destruct (load_context_json w) as [ctx|e]; [reflexivity|].
  destruct (is_FileNotFoundError e); reflexivity.
Qed.

Lemma init_registry (openai_api_key : option string) (n : nat)
    (self : MultiAgentOrchestrator) :
  result (MultiAgentOrchestrator_init w openai_api_key n) = Returns self ->
  exists c ctx, agents self = registry c ctx.
Proof.
  rewrite MultiAgentOrchestrator_init_run.
  destruct (credential w openai_api_key) as [k|]; [|discriminate].
  destruct (String.eqb k ""); [discriminate|].
  destruct (load_context_json w) as [ctx|e].
  - intros [= <-]. now eexists _, _.
  - destruct (is_FileNotFoundError e); [|discriminate].
    intros [= <-]. now eexists _, _.
Qed.

Lemma registry_get (c : AsyncOpenAI) (ctx : Context) (category : AgentType) :
  agents_get category (registry c ctx) =
  match registered_class category with
  | Some cls => Some {| agent_class := cls; agent_type := category;
                        client := c; project_context := ctx |}
  | None => None
  end.
Proof. destruct category; reflexivity. Qed.

End Construction.

Section WorkflowRuns.

Variable w : World.
Variable self : MultiAgentOrchestrator.

Lemma process_workflow_loop_cons (task : AgentTask) (rest : list AgentTask)
    (results : list Dict) (n : nat) :
  process_workflow_loop w self (task :: rest) results n =
  let b := process_workflow_body w self task results n in
  match result b with
  | Returns results' =>
      let r := process_workflow_loop w self rest results' (calls b) in
      {| result := result r; emitted := (emitted b ++ emitted r)%list; calls := calls r |}
  | Raises e => {| result := Raises e; emitted := emitted b; calls := calls b |}
  end.
Proof. reflexivity. Qed.

(** One iteration never raises: it appends one record for a task of a
    registered category and nothing otherwise. *)
Lemma process_workflow_body_result (task : AgentTask) (results : list Dict) (n : nat) :
  result (process_workflow_body w self task results n) =
  Returns (results ++ match agents_get (task_type task) (agents self) with
                      | Some agent => [appended_record w agent task n]
                      | None => []
                      end)%list.
Proof.
  rewrite process_workflow_body_run. unfold appended_record.
  destruct (agents_get (task_type task) (agents self)) as [agent|].
  - cbv zeta. destruct (result (process_task w agent task n)); reflexivity.
  - cbn [result]. now rewrite app_nil_r.
Qed.

(** The loop returns, having appended one record per task of a registered
    category, in the order of the list it walks. *)
Lemma process_workflow_loop_records (R : AgentTask -> Dict -> Prop) :
  (forall task agent n,
      agents_get (task_type task) (agents self) = Some agent ->
      R task (appended_record w agent task n)) ->
  forall (l : list AgentTask) (results : list Dict) (n : nat),
  exists recs,
    result (process_workflow_loop w self l results n) = Returns (results ++ recs)%list
    /\ Forall2 R (filter (registered self) l) recs.
Proof.
  intros HR. induction l as [|task rest IH]; intros results n.
  - exists []. split; [cbn; now rewrite app_nil_r|constructor].
  - rewrite process_workflow_loop_cons. cbv zeta.
    rewrite process_workflow_body_result.
    cbn [filter]. unfold registered at 1.
    destruct (agents_get (task_type task) (agents self)) as [agent|] eqn:Hget.
    + destruct (IH (results ++ [appended_record w agent task n])%list
                  (calls (process_workflow_body w self task results n)))
        as (recs & Hres & Hrecs).
      exists (appended_record w agent task n :: recs). split.
      * cbn [result]. rewrite Hres, <- app_assoc. reflexivity.
      * constructor; [now apply HR|exact Hrecs].
    + rewrite app_nil_r.
      destruct (IH results (calls (process_workflow_body w self task results n)))
        as (recs & Hres & Hrecs).
      exists recs. split; [exact Hres|exact Hrecs].
Qed.

(** [process_workflow] returns a summary. *)
Lemma process_workflow_records (R : AgentTask -> Dict -> Prop) :
  (forall task agent n,
      agents_get (task_type task) (agents self) = Some agent ->
      R task (appended_record w agent task n)) ->
  forall (tasks : list AgentTask) (n : nat),
  exists recs,
    result (process_workflow w self tasks n) =
      Returns {| workflow_results := recs;
                 total_tasks := List.length tasks;
                 completed_tasks := count_status "completed" recs;
                 failed_tasks := count_status "error" recs |}
    /\ Forall2 R (filter (registered self) (sorted priority true tasks)) recs.
Proof.
  intros HR tasks n.
  destruct (process_workflow_loop_records R HR (sorted priority true tasks) [] n)
    as (recs & Hres & Hrecs).
  exists recs. split; [|exact Hrecs].
  unfold process_workflow, bind. rewrite Hres. reflexivity.
Qed.

(** What the loop returns: the records it was given, then the record of each
    task that has an agent, each made by [process_task] for that very task (or
    by the orchestrator's handler when [process_task] raises) and started
    after the completion calls of the tasks before it. *)
Lemma process_workflow_loop_result (l : list AgentTask) (results : list Dict) (n : nat) :
  result (process_workflow_loop w self l results n)
  = Returns (results ++ workflow_records w self l n)%list.
Proof.
  revert results n. induction l as [|task rest IH]; intros results n.
  - cbn. now rewrite app_nil_r.
  - rewrite process_workflow_loop_cons. cbv zeta.
    rewrite process_workflow_body_result. cbn [result workflow_records].
    rewrite IH, process_workflow_body_run.
    destruct (agents_get (task_type task) (agents self)) as [agent|].
    + cbv zeta. rewrite <- app_assoc.
      now destruct (result (process_task w agent task n)).
    + cbn [calls]. now rewrite app_nil_r.
Qed.

Lemma workflow_records_registered (l : list AgentTask) (n : nat) :
  workflow_records w self (filter (registered self) l) n = workflow_records w self l n.
Proof.
  revert n. induction l as [|task rest IH]; intros n; [reflexivity|].
  cbn [filter workflow_records]. unfold registered at 1.
  destruct (agents_get (task_type task) (agents self)) as [agent|] eqn:Hget.
  - cbn [workflow_records]. now rewrite Hget, IH.
  - apply IH.
Qed.

Lemma process_workflow_result (tasks : list AgentTask) (n : nat) :
  result (process_workflow w self tasks n)
  = Returns
      {| workflow_results := workflow_records w self (sorted priority true tasks) n;
         total_tasks := List.length tasks;
         completed_tasks :=
           count_status "completed" (workflow_records w self (sorted priority true tasks) n);
         failed_tasks :=
           count_status "error" (workflow_records w self (sorted priority true tasks) n) |}.
Proof.
  unfold process_workflow, bind. now rewrite process_workflow_loop_result.
Qed.

(** Every record an agent returns, and every record the orchestrator builds
    for a failed task, has status [completed] or [error]. *)
Lemma appended_record_settled (agent : CodexAgent) (task : AgentTask) (n : nat) :
  settled (appended_record w agent task n).
Proof.
  unfold appended_record. rewrite process_task_run. cbv zeta.
  destruct (result (read_files w (files task) [] n)) as [fc|e];
    [|right; split; reflexivity].
  destruct (agent_request agent task fc) as [request|e];
    [|right; split; reflexivity].
  destruct (chat_completion w _ request) as [payload|e]; cbn [result].
  - left. destruct (agent_class agent); split; reflexivity.
  - right. split; reflexivity.
Qed.

Lemma settled_counts (recs : list Dict) :
  Forall settled recs ->
  count_status "completed" recs + count_status "error" recs = List.length recs.
Proof.
  unfold count_status.
  induction 1 as [|d recs Hd _ IH]; [reflexivity|].
  cbn [filter List.length].
  destruct Hd as [[-> ->]|[-> ->]]; cbn [List.length]; lia.
Qed.

Lemma Forall2_length_right {X Y : Type} (R : X -> Y -> Prop) (l1 : list X) (l2 : list Y) :
  Forall2 R l1 l2 -> List.length l2 = List.length l1.
Proof. induction 1; cbn; congruence. Qed.

Lemma Forall2_Forall_right {X Y : Type} (P : Y -> Prop) (l1 : list X) (l2 : list Y) :
  Forall2 (fun _ y => P y) l1 l2 -> Forall P l2.
Proof. induction 1; constructor; assumption. Qed.

End WorkflowRuns.

Lemma filter_perm {X : Type} (f : X -> bool) (l1 l2 : list X) :
  Permutation l1 l2 -> Permutation (filter f l1) (filter f l2).
Proof.
  induction 1 as [|x l1 l2 _ IH|x y l|l1 l2 l3 _ IH1 _ IH2]; cbn.
  - constructor.
  - destruct (f x); [now constructor|exact IH].
  - destruct (f x), (f y); try reflexivity. apply perm_swap.
  - now transitivity (filter f l2).
Qed.

Lemma StronglySorted_filter {X : Type} (R : X -> X -> Prop) (f : X -> bool) (l : list X) :
  StronglySorted R l -> StronglySorted R (filter f l).
Proof.
  induction 1 as [|x l Hl IH Hx]; cbn [filter]; [constructor|].
  destruct (f x); [|exact IH].
  constructor; [exact IH|].
  apply Forall_forall. intros y Hy. apply filter_In in Hy as [Hy _].
  rewrite Forall_forall in Hx. now apply Hx.
Qed.

Lemma filter_split_length {X : Type} (f : X -> bool) (l : list X) :
  List.length l = List.length (filter f l) + List.length (filter (fun x => negb (f x)) l).
Proof.
  induction l as [|x l IH]; [reflexivity|].
  cbn. destruct (f x); cbn; lia.
Qed.

(* ===================================================================== *)
(** * Workflow results *)
(* ===================================================================== *)

(** In a constructed orchestrator the agent found for a registered task is
    the agent of the task's category, and the record it leaves is of one of
    the two shapes. *)
Lemma appended_record_shaped (w : World) (c : AsyncOpenAI) (ctx : Context)
    (task : AgentTask) (agent : CodexAgent) (n : nat) :
  agents_get (task_type task) (registry c ctx) = Some agent ->
  shaped_record task (appended_record w agent task n).
Proof.
  rewrite registry_get.
  destruct (registered_class (task_type task)) as [cls|] eqn:Hcls; [|discriminate].
  intros [= <-]. exists cls. split; [exact Hcls|].
  unfold appended_record. rewrite process_task_run. cbv zeta.
  cbn [agent_class agent_type].
  destruct (result (read_files w (files task) [] n)) as [fc|e];
    [|right; now eexists].
  destruct (agent_request _ task fc) as [request|e]; [|right; now eexists].
  destruct (chat_completion w _ request) as [payload|e]; cbn [result].
  - left. now exists payload.
  - right. now eexists.
Qed.

Lemma holds_list_completed (c : AgentClass) (category : AgentType) (payload : string)
    (paths : list string) :
  holds_list paths (completed_record c category payload paths) = true.
Proof.
  unfold holds_list, completed_record. cbn [existsb snd].
  destruct (list_eq_dec string_dec paths paths) as [_|Hne]; [|now elim Hne].
  reflexivity.
Qed.

Lemma shaped_record_for (task : AgentTask) (d : Dict) :
  shaped_record task d -> record_for task d.
Proof.
  intros (c & _ & [[payload ->]|[message ->]]).
  - split; [reflexivity|]. left.
    split; [now destruct c|]. split; [now destruct c|].
    apply holds_list_completed.
  - split; [reflexivity|]. right. split; reflexivity.
Qed.

(** C1.  For every task list, [process_workflow] of a constructed
    orchestrator returns a summary whose records answer, one for one and in
    this order, the tasks of registered category taken in the order
    [sorted(tasks, key=priority, reverse=True)] gives: these are exactly the
    registered tasks of the input, in descending priority, and tasks of equal
    priority keep their submission order.  The record at each place is the
    one made for the task at that place: what [process_task] returned for it,
    or the orchestrator's error record for it, after the completion calls of
    the tasks before it. *)
Theorem process_workflow_one_record_per_registered_task
    (w : World) (openai_api_key : option string) (n0 : nat)
    (self : MultiAgentOrchestrator) (tasks : list AgentTask) (n : nat) :
  result (MultiAgentOrchestrator_init w openai_api_key n0) = Returns self ->
  exists summary processed,
    result (process_workflow w self tasks n) = Returns summary
    /\ Forall2 record_for processed (workflow_results summary)
    /\ Permutation processed (filter (registered self) tasks)
    /\ StronglySorted (fun t1 t2 => priority t1 >= priority t2)%Z processed
    /\ (forall p : Z,
          filter (priority_eqb p) processed
          = filter (priority_eqb p) (filter (registered self) tasks))
    /\ processed = filter (registered self) (sorted priority true tasks)
    /\ workflow_results summary = workflow_records w self processed n.
Proof.
  intros Hinit.
  destruct (init_registry _ _ _ _ Hinit) as (c & ctx & Hreg).
  destruct (process_workflow_records w self record_for) with (tasks := tasks) (n := n)
    as (recs & Hres & Hrecs).
  { intros task agent m Hget. rewrite Hreg in Hget.
    eapply shaped_record_for, appended_record_shaped, Hget. }
  eexists _, (filter (registered self) (sorted priority true tasks)).
  split; [exact Hres|]. cbn [workflow_results].
  split; [exact Hrecs|].
  split; [|split; [|split; [|split; [reflexivity|]]]].
  4: { rewrite process_workflow_result in Hres. apply Returns_inj in Hres.
       apply (f_equal workflow_results) in Hres. cbn [workflow_results] in Hres.
       now rewrite workflow_records_registered. }
  - apply filter_perm, sorted_reverse_perm.
  - apply StronglySorted_filter, (sorted_reverse_descending _ priority).
  - intros p.
    assert (Hcomm : forall l, filter (priority_eqb p) (filter (registered self) l)
                              = filter (registered self) (filter (priority_eqb p) l)).
    { induction l as [|t l IH]; [reflexivity|].
      cbn [filter]. destruct (registered self t) eqn:E1, (priority_eqb p t) eqn:E2;
        cbn [filter]; rewrite ?E1, ?E2, IH; reflexivity. }
    rewrite !Hcomm. f_equal.
    apply (sorted_reverse_stable _ priority p tasks).
Qed.

(** The scenario of three tasks with priorities 1, 5 and 3. *)
Example sorted_by_priority :
  map description
    (sorted priority true
       [ sample_task CODE_REVIEWER "A" [] 1;
         sample_task CODE_REVIEWER "B" [] 5;
         sample_task CODE_REVIEWER "C" [] 3 ])
  = ["B"; "C"; "A"].
Proof. reflexivity. Qed.

Example sorted_keeps_ties_in_order :
  map description
    (sorted priority true
       [ sample_task CODE_REVIEWER "A" [] 1;
         sample_task TESTING "B" [] 2;
         sample_task DOCUMENTATION "C" [] 1;
         sample_task CODE_REVIEWER "D" [] 2 ])
  = ["B"; "D"; "A"; "C"].
Proof. reflexivity. Qed.

Lemma process_workflow_one_record_per_registered_task_witness :
  result (MultiAgentOrchestrator_init sample_world None 0) = Returns sample_orchestrator
  /\ exists summary processed,
       result (process_workflow sample_world sample_orchestrator
                 [review_bot; audit_bot; review_locked; review_partial] 0)
       = Returns summary
       /\ Forall2 record_for processed (workflow_results summary)
       /\ Permutation processed
            (filter (registered sample_orchestrator)
               [review_bot; audit_bot; review_locked; review_partial])
       /\ StronglySorted (fun t1 t2 => priority t1 >= priority t2)%Z processed
       /\ (forall p : Z,
             filter (priority_eqb p) processed
             = filter (priority_eqb p)
                 (filter (registered sample_orchestrator)
                    [review_bot; audit_bot; review_locked; review_partial]))
       /\ processed
          = filter (registered sample_orchestrator)
              (sorted priority true [review_bot; audit_bot; review_locked; review_partial])
       /\ workflow_results summary
          = workflow_records sample_world sample_orchestrator processed 0.
Proof.
  split; [reflexivity|].
  apply (process_workflow_one_record_per_registered_task
           sample_world None 0 sample_orchestrator
           [review_bot; audit_bot; review_locked; review_partial] 0).
  reflexivity.
Defined.

(** C5.  For every task list, the summary has [total_tasks] equal to the
    length of the input list, so it counts the tasks of unregistered category
    next to the emitted records; [completed_tasks] and [failed_tasks] are the
    numbers of emitted records of status [completed] and of status [error]. *)
Theorem process_workflow_summary_counts
    (w : World) (self : MultiAgentOrchestrator) (tasks : list AgentTask) (n : nat) :
  exists summary,
    result (process_workflow w self tasks n) = Returns summary
    /\ total_tasks summary = List.length tasks
    /\ total_tasks summary
       = List.length (workflow_results summary)
         + List.length (filter (fun t => negb (registered self t)) tasks)
    /\ completed_tasks summary
       = List.length (filter (get_eq_str "status" "completed") (workflow_results summary))
    /\ failed_tasks summary
       = List.length (filter (get_eq_str "status" "error") (workflow_results summary)).
Proof.
  destruct (process_workflow_records w self (fun _ _ => True)) with (tasks := tasks) (n := n)
    as (recs & Hres & Hrecs); [trivial|].
  eexists. split; [exact Hres|]. cbn [total_tasks workflow_results completed_tasks failed_tasks].
  repeat split.
  rewrite (Forall2_length_right _ _ _ Hrecs).
  rewrite (Permutation_length (filter_perm (registered self) _ _
                                 (sorted_reverse_perm _ priority tasks))).
  apply filter_split_length.
Qed.

(** C6.  For every task list, every emitted record has status exactly
    [completed] or exactly [error], hence [completed_tasks + failed_tasks]
    is the number of emitted records. *)
Theorem process_workflow_counts_add_up
    (w : World) (self : MultiAgentOrchestrator) (tasks : list AgentTask) (n : nat) :
  exists summary,
    result (process_workflow w self tasks n) = Returns summary
    /\ Forall settled (workflow_results summary)
    /\ completed_tasks summary + failed_tasks summary
       = List.length (workflow_results summary).
Proof.
  destruct (process_workflow_records w self (fun _ d => settled d)) with (tasks := tasks) (n := n)
    as (recs & Hres & Hrecs).
  { intros task agent m _. apply appended_record_settled. }
  apply Forall2_Forall_right in Hrecs.
  eexists. split; [exact Hres|]. cbn [workflow_results completed_tasks failed_tasks].
  split; [exact Hrecs|]. now apply settled_counts.
Qed.

(* ===================================================================== *)
(** * Result records *)
(* ===================================================================== *)

Lemma shaped_record_parts (task : AgentTask) (d : Dict) :
  shaped_record task d -> record_parts task d.
Proof.
  intros (c & Hc & [[payload ->]|[message ->]]).
  - split; [reflexivity|]. left.
    split; [now destruct c|].
    split.
    + exists c, payload. split; [exact Hc|]. now destruct c.
    + unfold full_record. rewrite holds_list_completed. now destruct c.
  - split; [reflexivity|]. right.
    split; [reflexivity|]. split; [now exists message|]. split; reflexivity.
Qed.

(** C2, as stated, fails: when the completion call fails, the record the
    reviewer returns has the category, the status and the message, and no
    entry for the file list. *)
Lemma error_record_without_file_list :
  result (process_task offline_world reviewer review_bot 0)
  = Returns [ ("agent_type", VStr "code_reviewer");
              ("status", VStr "error");
              ("error", VStr "Connection error.") ]
  /\ full_record review_bot
       [ ("agent_type", VStr "code_reviewer");
         ("status", VStr "error");
         ("error", VStr "Connection error.") ] = false
  /\ holds_list (files review_bot)
       [ ("agent_type", VStr "code_reviewer");
         ("status", VStr "error");
         ("error", VStr "Connection error.") ] = false.
Proof. repeat split; vm_compute; reflexivity. Qed.

(** C2, amended.  Every record [process_workflow] emits for a task carries
    the task's category and a status; a record of status [completed] also
    carries the payload and the task's file list under the fields of the
    category, and a record of status [error] carries the error message and
    nothing more: it does not echo the file list. *)
Theorem result_record_parts
    (w : World) (openai_api_key : option string) (n0 : nat)
    (self : MultiAgentOrchestrator) (tasks : list AgentTask) (n : nat) :
  result (MultiAgentOrchestrator_init w openai_api_key n0) = Returns self ->
  exists summary,
    result (process_workflow w self tasks n) = Returns summary
    /\ Forall2 record_parts
         (filter (registered self) (sorted priority true tasks))
         (workflow_results summary).
Proof.
  intros Hinit.
  destruct (init_registry _ _ _ _ Hinit) as (c & ctx & Hreg).
  destruct (process_workflow_records w self record_parts) with (tasks := tasks) (n := n)
    as (recs & Hres & Hrecs).
  { intros task agent m Hget. rewrite Hreg in Hget.
    eapply shaped_record_parts, appended_record_shaped, Hget. }
  eexists. split; [exact Hres|exact Hrecs].
Qed.

Lemma result_record_parts_witness :
  result (MultiAgentOrchestrator_init sample_world None 0) = Returns sample_orchestrator
  /\ exists summary,
       result (process_workflow sample_world sample_orchestrator
                 [review_bot; document_bot] 0) = Returns summary
       /\ Forall2 record_parts
            (filter (registered sample_orchestrator)
               (sorted priority true [review_bot; document_bot]))
            (workflow_results summary).
Proof.
  split; [reflexivity|].
  apply (result_record_parts sample_world None 0 sample_orchestrator
           [review_bot; document_bot] 0).
  reflexivity.
Defined.

(* ===================================================================== *)
(** * Failures *)
(* ===================================================================== *)

Lemma process_task_calls (w : World) (agent : CodexAgent) (task : AgentTask) (n : nat) :
  calls (process_task w agent task n) =
  match result (process_task w agent task n) with
  | Returns _ => S n
  | Raises _ => n
  end.
Proof.
  rewrite process_task_run. cbv zeta.
  destruct (result (read_files w (files task) [] n)) as [fc|e];
    [|cbn [result calls]; apply read_files_calls].
  destruct (agent_request agent task fc) as [request|e];
    [|cbn [result calls]; apply read_files_calls].
  destruct (chat_completion w _ request); cbn [result calls]; now rewrite read_files_calls.
Qed.

(** C3.  Whatever the agent's class, when the files have been read, the
    request has been built and the completion call raises [e],
    [process_task] returns the record of status [error] with [str(e)] and
    logs the failure; the exception does not leave [process_task], the
    orchestrator appends the record and goes on with the remaining tasks. *)
Theorem model_failure_becomes_error_record
    (w : World) (self : MultiAgentOrchestrator) (task : AgentTask)
    (rest : list AgentTask) (results : list Dict) (n : nat)
    (agent : CodexAgent) (file_contents : list string) (request : ChatRequest)
    (e : Exn) :
  agents_get (task_type task) (agents self) = Some agent ->
  result (read_files w (files task) [] n) = Returns file_contents ->
  agent_request agent task file_contents = Returns request ->
  chat_completion w n request = Raises e ->
  result (process_task w agent task n)
  = Returns [ ("agent_type", VStr (value (agent_type agent)));
              ("status", VStr "error");
              ("error", VStr (str e)) ]
  /\ In (Log ERROR (failure_prefix (agent_class agent) ++ str e))
        (emitted (process_task w agent task n))
  /\ result (process_workflow_body w self task results n)
     = Returns (results ++ [ [ ("agent_type", VStr (value (agent_type agent)));
                               ("status", VStr "error");
                               ("error", VStr (str e)) ] ])%list
  /\ result (process_workflow_loop w self (task :: rest) results n)
     = result (process_workflow_loop w self rest
                 (results ++ [ [ ("agent_type", VStr (value (agent_type agent)));
                                 ("status", VStr "error");
                                 ("error", VStr (str e)) ] ])%list
                 (S n))
  /\ result (process_workflow_loop w self (task :: rest) results n)
     = Returns ((results ++ [ [ ("agent_type", VStr (value (agent_type agent)));
                                ("status", VStr "error");
                                ("error", VStr (str e)) ] ])
                ++ workflow_records w self rest (S n))%list.
Proof.
  intros Hget Hread Hreq Hcall.
  assert (Hrun : process_task w agent task n =
                 {| result := Returns (error_record (agent_type agent) (str e));
                    emitted := (emitted (read_files w (files task) [] n)
                                ++ [Completion request;
                                    Log ERROR (failure_prefix (agent_class agent) ++ str e)])%list;
                    calls := S n |}).
  { rewrite process_task_run. cbv zeta. rewrite Hread, Hreq, read_files_calls, Hcall.
    reflexivity. }
  assert (Hbody : process_workflow_body w self task results n =
                  {| result := Returns (results ++ [error_record (agent_type agent) (str e)])%list;
                     emitted := (processing_event task
                                 :: emitted (process_task w agent task n) ++ [Sleep 1])%list;
                     calls := S n |}).
  { rewrite process_workflow_body_run, Hget. cbv zeta. rewrite Hrun. reflexivity. }
  split; [now rewrite Hrun|].
  split; [rewrite Hrun; cbn [emitted]; apply in_or_app; right; right; now left|].
  split; [now rewrite Hbody|].
  assert (Hloop : result (process_workflow_loop w self (task :: rest) results n)
                  = result (process_workflow_loop w self rest
                              (results ++ [error_record (agent_type agent) (str e)])%list
                              (S n))).
  { rewrite process_workflow_loop_cons. cbv zeta. rewrite Hbody. reflexivity. }
  split; [exact Hloop|].
  rewrite Hloop. apply process_workflow_loop_result.
Qed.

Lemma model_failure_becomes_error_record_witness :
  agents_get (task_type document_bot) (agents sample_orchestrator)
  = Some (sample_agent DocumentationAgent DOCUMENTATION)
  /\ result (read_files offline_world (files document_bot) [] 0)
     = Returns [file_block "bot.py" "print(1)"]
  /\ (exists request,
        agent_request (sample_agent DocumentationAgent DOCUMENTATION) document_bot
          [file_block "bot.py" "print(1)"] = Returns request
        /\ chat_completion offline_world 0 request = Raises ConnectionError)
  /\ result (process_workflow_loop offline_world sample_orchestrator
               [document_bot; review_bot] [] 0)
     = result (process_workflow_loop offline_world sample_orchestrator [review_bot]
                 [ [ ("agent_type", VStr "documentation");
                     ("status", VStr "error");
                     ("error", VStr "Connection error.") ] ] 1).
Proof.
  split; [reflexivity|]. split; [reflexivity|].
  split; [eexists; split; reflexivity|].
  eapply (model_failure_becomes_error_record offline_world sample_orchestrator
            document_bot [review_bot] [] 0
            (sample_agent DocumentationAgent DOCUMENTATION)
            [file_block "bot.py" "print(1)"] _ ConnectionError);
    reflexivity.
Defined.

(** C10.  When [process_task] raises [e] for a task of registered category,
    the loop body catches it, logs it and appends the record with the task's
    category, status [error] and [str(e)]; the loop then goes on with the
    remaining tasks. *)
Theorem raised_task_becomes_error_record
    (w : World) (self : MultiAgentOrchestrator) (task : AgentTask)
    (rest : list AgentTask) (results : list Dict) (n : nat)
    (agent : CodexAgent) (e : Exn) :
  agents_get (task_type task) (agents self) = Some agent ->
  result (process_task w agent task n) = Raises e ->
  result (process_workflow_body w self task results n)
  = Returns (results ++ [ [ ("agent_type", VStr (value (task_type task)));
                            ("status", VStr "error");
                            ("error", VStr (str e)) ] ])%list
  /\ emitted (process_workflow_body w self task results n)
     = (processing_event task
        :: emitted (process_task w agent task n) ++ [Log ERROR ("Task failed: " ++ str e)])%list
  /\ result (process_workflow_loop w self (task :: rest) results n)
     = result (process_workflow_loop w self rest
                 (results ++ [ [ ("agent_type", VStr (value (task_type task)));
                                 ("status", VStr "error");
                                 ("error", VStr (str e)) ] ])%list
                 n)
  /\ result (process_workflow_loop w self (task :: rest) results n)
     = Returns ((results ++ [ [ ("agent_type", VStr (value (task_type task)));
                                ("status", VStr "error");
                                ("error", VStr (str e)) ] ])
                ++ workflow_records w self rest n)%list.
Proof.
  intros Hget Hraise.
  assert (Hcalls : calls (process_task w agent task n) = n).
  { apply (process_task_raises w agent task n e Hraise). }
  assert (Hbody : process_workflow_body w self task results n =
                  {| result := Returns (results ++ [error_record (task_type task) (str e)])%list;
                     emitted := (processing_event task
                                 :: emitted (process_task w agent task n)
                                 ++ [task_failed_event e])%list;
                     calls := n |}).
  { rewrite process_workflow_body_run, Hget. cbv zeta. rewrite Hraise, Hcalls.
    reflexivity. }
  split; [now rewrite Hbody|]. split; [now rewrite Hbody|].
  assert (Hloop : result (process_workflow_loop w self (task :: rest) results n)
                  = result (process_workflow_loop w self rest
                              (results ++ [error_record (task_type task) (str e)])%list n)).
  { rewrite process_workflow_loop_cons. cbv zeta. rewrite Hbody. reflexivity. }
  split; [exact Hloop|].
  rewrite Hloop. apply process_workflow_loop_result.
Qed.

Lemma raised_task_becomes_error_record_witness :
  agents_get (task_type review_locked) (agents sample_orchestrator) = Some reviewer
  /\ result (process_task sample_world reviewer review_locked 0)
     = Raises (PermissionDenied "locked.py")
  /\ result (process_workflow_body sample_world sample_orchestrator review_locked [] 0)
     = Returns [ [ ("agent_type", VStr "code_reviewer");
                   ("status", VStr "error");
                   ("error", VStr "[Errno 13] Permission denied: 'locked.py'") ] ]
  /\ result (process_workflow_loop sample_world sample_orchestrator
               [review_locked; review_bot] [] 0)
     = result (process_workflow_loop sample_world sample_orchestrator [review_bot]
                 [ [ ("agent_type", VStr "code_reviewer");
                     ("status", VStr "error");
                     ("error", VStr "[Errno 13] Permission denied: 'locked.py'") ] ] 0).
Proof.
  split; [reflexivity|]. split; [reflexivity|].
  destruct (raised_task_becomes_error_record sample_world sample_orchestrator
              review_locked [review_bot] [] 0 reviewer (PermissionDenied "locked.py")
              eq_refl eq_refl) as (Hbody & _ & Hloop & _).
  split; [exact Hbody|exact Hloop].
Defined.

(* ===================================================================== *)
(** * The delay *)
(* ===================================================================== *)

Lemma process_task_no_task_failed (w : World) (agent : CodexAgent) (task : AgentTask)
    (n : nat) :
  filter is_task_failed (emitted (process_task w agent task n)) = [].
Proof.
  rewrite process_task_run. cbv zeta.
  pose proof (read_files_emits_warnings w (files task) [] n) as Hw.
  assert (Hs : filter is_task_failed (emitted (read_files w (files task) [] n)) = []).
  { induction Hw as [|ev l Hev _ IH]; [reflexivity|].
    cbn [filter]. destruct ev as [[]| |]; try discriminate Hev. exact IH. }
  destruct (result (read_files w (files task) [] n)) as [fc|e]; [|exact Hs].
  destruct (agent_request agent task fc) as [request|e]; [|exact Hs].
  destruct (chat_completion w _ request); cbn [emitted]; rewrite filter_app, Hs;
    [reflexivity|].
  now destruct (agent_class agent).
Qed.

Lemma task_failed_event_counts (e : Exn) : is_task_failed (task_failed_event e) = true.
Proof. unfold is_task_failed, task_failed_event. cbn. now destruct (str e). Qed.

(** What one iteration contributes: one sleep after a returned record, the
    orchestrator's failure log after a raised exception. *)
Lemma process_workflow_body_delay (w : World) (self : MultiAgentOrchestrator)
    (task : AgentTask) (results : list Dict) (n : nat) :
  let b := process_workflow_body w self task results n in
  match agents_get (task_type task) (agents self) with
  | Some agent =>
      match result (process_task w agent task n) with
      | Returns _ =>
          sleeps (emitted b) = [Sleep 1] /\ filter is_task_failed (emitted b) = []
      | Raises e =>
          sleeps (emitted b) = [] /\ filter is_task_failed (emitted b) = [task_failed_event e]
      end
  | None => sleeps (emitted b) = [] /\ filter is_task_failed (emitted b) = []
  end.
Proof.
  cbv zeta. rewrite process_workflow_body_run.
  destruct (agents_get (task_type task) (agents self)) as [agent|]; [|now split].
  cbv zeta.
  pose proof (process_task_no_sleep w agent task n) as Hns.
  pose proof (process_task_no_task_failed w agent task n) as Hnf.
  unfold sleeps in *.
  destruct (result (process_task w agent task n)) as [d|e]; cbn [emitted];
    cbn [filter processing_event is_sleep is_task_failed];
    rewrite !filter_app, Hns, Hnf; cbn [filter is_sleep is_task_failed app].
  - now split.
  - rewrite task_failed_event_counts. now split.
Qed.

(** Over a whole run of the loop, every appended record is followed by a
    one-second sleep or preceded by the orchestrator's own failure log. *)
Lemma process_workflow_loop_delays (w : World) (self : MultiAgentOrchestrator)
    (l : list AgentTask) (results : list Dict) (n : nat) :
  exists recs,
    result (process_workflow_loop w self l results n) = Returns (results ++ recs)%list
    /\ Forall (eq (Sleep 1)) (sleeps (emitted (process_workflow_loop w self l results n)))
    /\ List.length (sleeps (emitted (process_workflow_loop w self l results n)))
       + List.length (filter is_task_failed
                        (emitted (process_workflow_loop w self l results n)))
       = List.length recs.
Proof.
  revert results n. induction l as [|task rest IH]; intros results n.
  - exists []. cbn. rewrite app_nil_r. repeat split. constructor.
  - rewrite process_workflow_loop_cons. cbv zeta.
    pose proof (process_workflow_body_delay w self task results n) as Hb.
    cbv zeta in Hb.
    rewrite process_workflow_body_result.
    destruct (IH (results ++ match agents_get (task_type task) (agents self) with
                             | Some agent => [appended_record w agent task n]
                             | None => []
                             end)%list
                 (calls (process_workflow_body w self task results n)))
      as (recs & Hres & Hall & Hlen).
    cbn [result emitted].
    unfold sleeps in *. rewrite !filter_app, !length_app.
    destruct (agents_get (task_type task) (agents self)) as [agent|].
    + exists (appended_record w agent task n :: recs).
      split; [rewrite Hres, <- app_assoc; reflexivity|].
      destruct (result (process_task w agent task n)) as [d|e];
        destruct Hb as [-> ->]; cbn [List.length app].
      * split; [now constructor|lia].
      * split; [exact Hall|lia].
    + exists recs. destruct Hb as [-> ->].
      rewrite app_nil_r in *.
      split; [exact Hres|]. split; [exact Hall|exact Hlen].
Qed.

(** C4, as stated, fails: the review of a file that cannot be opened leaves
    a record of status [error], built by the orchestrator, and the workflow
    ends without any sleep. *)
Lemma no_delay_after_raised_task :
  registered sample_orchestrator review_locked = true
  /\ result (process_workflow sample_world sample_orchestrator [review_locked] 0)
     = Returns {| workflow_results :=
                    [ [ ("agent_type", VStr "code_reviewer");
                        ("status", VStr "error");
                        ("error", VStr "[Errno 13] Permission denied: 'locked.py'") ] ];
                  total_tasks := 1;
                  completed_tasks := 0;
                  failed_tasks := 1 |}
  /\ emitted (process_workflow sample_world sample_orchestrator [review_locked] 0)
     = [ Log INFO "Processing code_reviewer task: B";
         Log ERROR "Task failed: [Errno 13] Permission denied: 'locked.py'" ].
Proof. repeat split; vm_compute; reflexivity. Qed.

(** C4, amended.  For a task of registered category, [process_task] itself
    never sleeps.  When it returns a record, of status [completed] or [error]
    alike, the loop body appends the record and then sleeps one second, after
    which the loop goes on with the next task; when it raises, the loop body
    appends the orchestrator's error record and does not sleep. *)
Theorem delay_follows_returned_record
    (w : World) (self : MultiAgentOrchestrator) (task : AgentTask)
    (rest : list AgentTask) (results : list Dict) (n : nat) (agent : CodexAgent) :
  agents_get (task_type task) (agents self) = Some agent ->
  let r := process_task w agent task n in
  let b := process_workflow_body w self task results n in
  sleeps (emitted r) = []
  /\ match result r with
     | Returns d =>
         settled d
         /\ result b = Returns (results ++ [d])%list
         /\ emitted b = (processing_event task :: emitted r ++ [Sleep 1])%list
         /\ emitted (process_workflow_loop w self (task :: rest) results n)
            = (emitted b
               ++ emitted (process_workflow_loop w self rest (results ++ [d]) (calls r)))%list
     | Raises e =>
         result b = Returns (results ++ [error_record (task_type task) (str e)])%list
         /\ emitted b = (processing_event task :: emitted r ++ [task_failed_event e])%list
         /\ sleeps (emitted b) = []
         /\ emitted (process_workflow_loop w self (task :: rest) results n)
            = (emitted b
               ++ emitted (process_workflow_loop w self rest
                             (results ++ [error_record (task_type task) (str e)])
                             (calls r)))%list
     end.
Proof.
  intros Hget r b.
  pose proof (process_task_no_sleep w agent task n) as Hns. fold r in Hns.
  pose proof (appended_record_settled w agent task n) as Hset.
  unfold appended_record in Hset. fold r in Hset.
  split; [exact Hns|].
  assert (Hloop : process_workflow_loop w self (task :: rest) results n
                  = match result b with
                    | Returns results' =>
                        {| result := result (process_workflow_loop w self rest results' (calls b));
                           emitted := (emitted b ++ emitted (process_workflow_loop w self rest
                                                              results' (calls b)))%list;
                           calls := calls (process_workflow_loop w self rest results' (calls b)) |}
                    | Raises e => {| result := Raises e; emitted := emitted b; calls := calls b |}
                    end) by reflexivity.
  rewrite Hloop. clear Hloop.
  subst b. rewrite process_workflow_body_run, Hget. cbv zeta. fold r.
  destruct (result r) as [d|e]; cbn [result emitted calls].
  - repeat split; [exact Hset..].
  - repeat split.
    unfold sleeps in *. cbn [filter processing_event is_sleep].
    rewrite filter_app, Hns. reflexivity.
Qed.

Lemma delay_follows_returned_record_witness :
  agents_get (task_type review_bot) (agents sample_orchestrator) = Some reviewer
  /\ emitted (process_workflow_body offline_world sample_orchestrator review_bot [] 0)
     = (processing_event review_bot
        :: emitted (process_task offline_world reviewer review_bot 0) ++ [Sleep 1])%list
  /\ result (process_workflow_body offline_world sample_orchestrator review_bot [] 0)
     = Returns [ [ ("agent_type", VStr "code_reviewer");
                   ("status", VStr "error");
                   ("error", VStr "Connection error.") ] ].
Proof.
  split; [reflexivity|].
  pose proof (delay_follows_returned_record offline_world sample_orchestrator
                review_bot [] [] 0 reviewer eq_refl) as H.
  cbv zeta in H. destruct H as [_ H].
  change (result (process_task offline_world reviewer review_bot 0))
    with (@Returns Dict [ ("agent_type", VStr "code_reviewer");
                          ("status", VStr "error");
                          ("error", VStr "Connection error.") ]) in H.
  destruct H as (_ & Hres & Hem & _).
  split; [exact Hem|exact Hres].
Defined.

(* ===================================================================== *)
(** * Missing files *)
(* ===================================================================== *)






(* ===================================================================== *)
(** * Construction *)
(* ===================================================================== *)

(** C8, as stated, fails in its second half: with a key passed in,
    construction still raises when [context.json] cannot be parsed, and a key
    set to the empty string counts as no key. *)
Lemma construction_with_key_can_fail :
  result (MultiAgentOrchestrator_init broken_context_world (Some "sk-test") 0)
  = Raises JSONDecodeError
  /\ getenv empty_key_world "OPENAI_API_KEY" = Some ""
  /\ result (MultiAgentOrchestrator_init empty_key_world None 0)
     = Raises missing_key_error.
Proof. repeat split. Qed.

(** C8, amended.  [__init__] takes the key passed in or, when that is [None]
    or empty, the environment's.  When this value is [None] or empty it
    raises the [ValueError] before anything else happens, so no orchestrator
    exists on which [process_workflow] could be called.  Otherwise it goes on
    to build the three agents, and returns the orchestrator unless loading
    the project context raises something else than a not-found, which then
    leaves the constructor. *)
Theorem construction_checks_credential
    (w : World) (openai_api_key : option string) (n : nat) :
  let r := MultiAgentOrchestrator_init w openai_api_key n in
  credential w openai_api_key
  = (if truthy openai_api_key then openai_api_key else getenv w "OPENAI_API_KEY")
  /\ if truthy (credential w openai_api_key) then
       exists k,
         credential w openai_api_key = Some k
         /\ match load_context_json w with
            | Returns ctx => result r = Returns (orchestrator k ctx)
            | Raises e =>
                if is_FileNotFoundError e
                then result r = Returns (orchestrator k (JsonObject []))
                else result r = Raises e
            end
     else
       result r = Raises missing_key_error /\ emitted r = [] /\ calls r = n.
Proof.
  cbv zeta. split; [reflexivity|].
  rewrite MultiAgentOrchestrator_init_run.
  destruct (credential w openai_api_key) as [k|]; cbn [truthy]; [|now repeat split].
  destruct (String.eqb k ""); cbn [negb]; [now repeat split|].
  exists k. split; [reflexivity|].
  destruct (load_context_json w) as [ctx|e]; [reflexivity|].
  destruct (is_FileNotFoundError e); reflexivity.
Qed.

Example construction_without_key :
  result (MultiAgentOrchestrator_init keyless_world None 0) = Raises missing_key_error.
Proof. reflexivity. Qed.

Example construction_with_key :
  result (MultiAgentOrchestrator_init sample_world None 0) = Returns sample_orchestrator
  /\ result (MultiAgentOrchestrator_init keyless_world (Some "sk-test") 0)
     = Returns sample_orchestrator.
Proof. split; reflexivity. Qed.

(* ===================================================================== *)
(** * The registry *)
(* ===================================================================== *)

(** C9.  The registry of a constructed orchestrator has exactly the keys
    [CODE_REVIEWER], [DOCUMENTATION] and [TESTING].  For a task of any of the
    four other categories the loop body appends no record (it logs a warning
    and makes no completion call), and the loop goes on with the remaining
    tasks: it returns the records it had, followed by one record for each
    remaining task that has an agent, made for that task. *)
Theorem unregistered_categories_are_skipped
    (w : World) (openai_api_key : option string) (n0 : nat)
    (self : MultiAgentOrchestrator) (task : AgentTask) (rest : list AgentTask)
    (results : list Dict) (n : nat) :
  result (MultiAgentOrchestrator_init w openai_api_key n0) = Returns self ->
  In (task_type task) [REFACTORING; ARCHITECTURE; SECURITY; PERFORMANCE] ->
  map fst (agents self) = [CODE_REVIEWER; DOCUMENTATION; TESTING]
  /\ (forall category,
         agents_get category (agents self) <> None
         <-> In category [CODE_REVIEWER; DOCUMENTATION; TESTING])
  /\ process_workflow_body w self task results n
     = {| result := Returns results;
          emitted := [Log WARNING ("No agent available for task type: "
                                   ++ value (task_type task))];
          calls := n |}
  /\ result (process_workflow_loop w self (task :: rest) results n)
     = result (process_workflow_loop w self rest results n)
  /\ calls (process_workflow_loop w self (task :: rest) results n)
     = calls (process_workflow_loop w self rest results n)
  /\ result (process_workflow_loop w self (task :: rest) results n)
     = Returns (results ++ workflow_records w self rest n)%list
  /\ Forall2 record_for (filter (registered self) rest) (workflow_records w self rest n).
Proof.
  intros Hinit Hcat.
  destruct (init_registry _ _ _ _ Hinit) as (c & ctx & Hreg).
  assert (Hnone : agents_get (task_type task) (agents self) = None).
  { rewrite Hreg, registry_get.
    destruct (task_type task); cbn in Hcat; try reflexivity;
      exfalso; intuition discriminate. }
  assert (Hbody : process_workflow_body w self task results n
                  = {| result := Returns results;
                       emitted := [Log WARNING ("No agent available for task type: "
                                                ++ value (task_type task))];
                       calls := n |}).
  { now rewrite process_workflow_body_run, Hnone. }
  split; [now rewrite Hreg|].
  split.
  { intros category. rewrite Hreg, registry_get.
    destruct category; cbn; split; intros H; try discriminate;
      try (now elim H); intuition discriminate. }
  split; [exact Hbody|].
  split; [rewrite process_workflow_loop_cons; cbv zeta; now rewrite Hbody|].
  split; [rewrite process_workflow_loop_cons; cbv zeta; now rewrite Hbody|].
  split.
  - rewrite process_workflow_loop_result. cbn [workflow_records]. now rewrite Hnone.
  - destruct (process_workflow_loop_records w self record_for) with (l := rest)
      (results := @nil Dict) (n := n) as (recs & Hres & Hrecs).
    { intros t agent m Hget. rewrite Hreg in Hget.
      eapply shaped_record_for, appended_record_shaped, Hget. }
    rewrite process_workflow_loop_result in Hres. apply Returns_inj in Hres.
    cbn [app] in Hres. now rewrite Hres.
Qed.

Lemma unregistered_categories_are_skipped_witness :
  result (MultiAgentOrchestrator_init sample_world None 0) = Returns sample_orchestrator
  /\ In (task_type audit_bot) [REFACTORING; ARCHITECTURE; SECURITY; PERFORMANCE]
  /\ result (process_workflow_loop sample_world sample_orchestrator
               [audit_bot; review_bot] [] 0)
     = Returns [ [ ("agent_type", VStr "code_reviewer");
                   ("review", VStr "LGTM");
                   ("files_reviewed", VList ["bot.py"]);
                   ("status", VStr "completed") ] ].
Proof.
  split; [reflexivity|].
  split; [right; right; left; reflexivity|].
  destruct (unregistered_categories_are_skipped sample_world None 0 sample_orchestrator
              audit_bot [review_bot] [] 0 eq_refl
              (or_intror (or_intror (or_introl eq_refl))))
    as (_ & _ & _ & _ & _ & Hloop & _).
  exact Hloop.
Defined.

(* ===================================================================== *)
(** * Loading the context and building the agents *)
(* ===================================================================== *)

(** X2.  In an orchestrator [__init__] has returned, the key is the
    non-empty credential, the client carries that key, and every registered
    agent has the category it is registered under, the class of that
    category, the orchestrator's client and one common project context (the
    loaded one, or the empty one when [context.json] is missing).
    Construction makes no completion call and logs nothing but the context
    warning. *)
Theorem constructed_orchestrator_is_consistent
    (w : World) (openai_api_key : option string) (n : nat)
    (self : MultiAgentOrchestrator) :
  result (MultiAgentOrchestrator_init w openai_api_key n) = Returns self ->
  credential w openai_api_key = Some (api_key self)
  /\ api_key self <> ""
  /\ client_api_key (orchestrator_client self) = api_key self
  /\ (exists ctx,
        (load_context_json w = Returns ctx
         \/ ctx = JsonObject [] /\ exists e, load_context_json w = Raises e
                                  /\ is_FileNotFoundError e = true)
        /\ forall category agent,
             agents_get category (agents self) = Some agent ->
             agent_type agent = category
             /\ registered_class category = Some (agent_class agent)
             /\ client agent = orchestrator_client self
             /\ project_context agent = ctx)
  /\ calls (MultiAgentOrchestrator_init w openai_api_key n) = n
  /\ Forall (eq context_warning) (emitted (MultiAgentOrchestrator_init w openai_api_key n)).
Proof.
  rewrite MultiAgentOrchestrator_init_run.
  destruct (credential w openai_api_key) as [k|]; [|discriminate].
  destruct (String.eqb k "") eqn:Hk; [discriminate|].
  apply String.eqb_neq in Hk.
  assert (Hagents : forall ctx category agent,
             agents_get category (agents (orchestrator k ctx)) = Some agent ->
             agent_type agent = category
             /\ registered_class category = Some (agent_class agent)
             /\ client agent = orchestrator_client (orchestrator k ctx)
             /\ project_context agent = ctx).
  { intros ctx category agent. cbn [orchestrator agents orchestrator_client].
    rewrite registry_get.
    destruct (registered_class category) as [cls|]; [|discriminate].
    intros [= <-]. now repeat split. }
  destruct (load_context_json w) as [ctx|e] eqn:Hload.
  - intros [= <-]. cbn [result emitted calls orchestrator api_key orchestrator_client
                         client_api_key].
    repeat split; try assumption; try constructor.
    exists ctx. split; [now left|]. apply Hagents.
  - destruct (is_FileNotFoundError e) eqn:Hfnf; [|discriminate].
    intros [= <-]. cbn [result emitted calls orchestrator api_key orchestrator_client
                         client_api_key].
    repeat split; try assumption; try (repeat constructor).
    exists (JsonObject []). split; [right; split; [reflexivity|now exists e]|]. apply Hagents.
Qed.

Lemma constructed_orchestrator_is_consistent_witness :
  result (MultiAgentOrchestrator_init sample_world None 0) = Returns sample_orchestrator
  /\ credential sample_world None = Some (api_key sample_orchestrator)
  /\ api_key sample_orchestrator <> "".
Proof.
  split; [reflexivity|].
  destruct (constructed_orchestrator_is_consistent sample_world None 0
              sample_orchestrator eq_refl) as (Hcred & Hkey & _).
  split; [exact Hcred|exact Hkey].
Defined.

(* ===================================================================== *)
(** * Prompts *)
(* ===================================================================== *)



Lemma string_app_inv_head (a b c : string) : (a ++ b = a ++ c)%string -> b = c.
Proof. induction a as [|x a IH]; cbn; [trivial|]. intros [= H]. now apply IH. Qed.






Lemma agent_prompts_inj (t1 t2 : AgentType) :
  agent_prompts t1 = agent_prompts t2 -> t1 = t2.
Proof.
  destruct t1, t2; try reflexivity; intros [= H];
    apply String.eqb_eq in H; vm_compute in H; discriminate H.
Qed.

(** X3.  Every category has its own role text: whenever the system prompt
    of an agent is built, it is the base context followed by a non-empty role
    text, and two agents with the same project context have the same system
    prompt only if they have the same category. *)
Theorem system_prompt_identifies_the_category (a1 a2 : CodexAgent) (prompt : string) :
  project_context a1 = project_context a2 ->
  get_system_prompt a1 = Returns prompt ->
  get_system_prompt a2 = Returns prompt ->
  agent_type a1 = agent_type a2
  /\ exists entries role,
       project_context a1 = JsonObject entries
       /\ agent_prompts (agent_type a1) = Some role /\ role <> ""
       /\ prompt = (base_context entries ++ role)%string.
Proof.
  unfold get_system_prompt. intros <-.
  destruct (project_context a1) as [entries|ty]; [|discriminate].
  intros H1 H2. apply Returns_inj in H1. split.
  - rewrite <- H1 in H2. apply Returns_inj, string_app_inv_head in H2. symmetry in H2.
    apply agent_prompts_inj.
    destruct (agent_prompts (agent_type a1)) as [r1|] eqn:E1;
      destruct (agent_prompts (agent_type a2)) as [r2|] eqn:E2;
      try (now subst);
      [destruct (agent_type a2)|destruct (agent_type a1)]; discriminate.
  - exists entries. subst prompt.
    destruct (agent_type a1); cbn [agent_prompts]; eexists;
      (split; [reflexivity|split; [reflexivity|split; [|reflexivity]]]);
      intros E; apply String.eqb_eq in E; vm_compute in E; discriminate E.
Qed.

Lemma system_prompt_identifies_the_category_witness :
  project_context reviewer = project_context (sample_agent DocumentationAgent CODE_REVIEWER)
  /\ get_system_prompt reviewer
     = get_system_prompt (sample_agent DocumentationAgent CODE_REVIEWER)
  /\ agent_type reviewer = agent_type (sample_agent DocumentationAgent CODE_REVIEWER).
Proof.
  split; [reflexivity|]. split; [reflexivity|].
  eapply (system_prompt_identifies_the_category reviewer
            (sample_agent DocumentationAgent CODE_REVIEWER)); reflexivity.
Defined.



(** What [read_files] returns is decided by the first read that fails for
    another reason than not-found. *)
Lemma read_files_result (w : World) (paths acc : list string) (n : nat) :
  result (read_files w paths acc n) =
  match first_read_failure w paths with
  | Some e => Raises e
  | None => Returns (acc ++ present_blocks w paths)%list
  end.
Proof.
  revert acc. induction paths as [|p rest IH]; intros acc.
  - cbn. now rewrite app_nil_r.
  - rewrite read_files_cons. cbn [first_read_failure present_blocks].
    destruct (read_text w p) as [c|e].
    + rewrite IH. destruct (first_read_failure w rest); [reflexivity|].
      now rewrite <- app_assoc.
    + destruct (is_FileNotFoundError e); [|reflexivity].
      cbn [result]. apply IH.
Qed.

Lemma warnings_are_unpaced (trace : list Event) :
  Forall (fun ev => is_warning ev = true) trace ->
  completions trace = [] /\ pacing trace = [].
Proof.
  unfold completions, pacing.
  induction 1 as [|ev trace Hev _ [IHc IHp]]; [now split|].
  destruct ev as [[]| |]; try discriminate Hev. cbn. now split.
Qed.

(** The run of [process_task] in terms of the first read failure and of the
    request built. *)
Lemma process_task_outcome (w : World) (agent : CodexAgent) (task : AgentTask) (n : nat) :
  let r := process_task w agent task n in
  match first_read_failure w (files task) with
  | Some e =>
      result r = Raises e /\ calls r = n
      /\ completions (emitted r) = [] /\ pacing (emitted r) = []
  | None =>
      match agent_request agent task (present_blocks w (files task)) with
      | Raises e =>
          result r = Raises e /\ calls r = n
          /\ completions (emitted r) = [] /\ pacing (emitted r) = []
      | Returns request =>
          result r = Returns (match chat_completion w n request with
                              | Returns payload =>
                                  completed_record (agent_class agent) (agent_type agent)
                                    payload (files task)
                              | Raises e => error_record (agent_type agent) (str e)
                              end)
          /\ calls r = S n
          /\ completions (emitted r) = [Completion request]
          /\ pacing (emitted r) = [Completion request]
      end
  end.
Proof.
  cbv zeta. rewrite process_task_run. cbv zeta.
  destruct (warnings_are_unpaced _ (read_files_emits_warnings w (files task) [] n))
    as [Hc Hp].
  rewrite read_files_result, read_files_calls.
  destruct (first_read_failure w (files task)) as [e|]; [now repeat split|].
  cbn [app].
  destruct (agent_request agent task (present_blocks w (files task))) as [request|e];
    [|now repeat split].
  unfold completions, pacing in *.
  destruct (chat_completion w n request) as [payload|e]; cbn [result emitted calls];
    rewrite !filter_app, Hc, Hp; now repeat split.
Qed.



(** X5.  [process_task] raises in two cases only, and before any completion
    call: when reading one of the task's files fails for another reason than
    not-found, with the exception of the first such file; else when the
    system prompt cannot be built because the project context is not a JSON
    object, with the [AttributeError] of that.  Otherwise it returns a record
    after exactly one completion call, with the blocks of the present files. *)
Theorem process_task_raises_on_first_read_failure
    (w : World) (agent : CodexAgent) (task : AgentTask) (n : nat) :
  let r := process_task w agent task n in
  match first_read_failure w (files task) with
  | Some e =>
      result r = Raises e /\ calls r = n /\ completions (emitted r) = []
      /\ exists path, In path (files task) /\ read_text w path = Raises e
                      /\ is_FileNotFoundError e = false
  | None =>
      match project_context agent with
      | JsonOther type_name =>
          result r = Raises (no_attribute_get type_name)
          /\ calls r = n /\ completions (emitted r) = []
      | JsonObject _ =>
          exists request d,
            agent_request agent task (present_blocks w (files task)) = Returns request
            /\ result r = Returns d /\ settled d
            /\ calls r = S n
            /\ completions (emitted r) = [Completion request]
      end
  end.
Proof.
  cbv zeta.
  pose proof (process_task_outcome w agent task n) as H. cbv zeta in H.
  pose proof (appended_record_settled w agent task n) as Hset.
  unfold appended_record in Hset.
  destruct (first_read_failure w (files task)) as [e|] eqn:Hfirst.
  - destruct H as (Hres & Hcalls & Hc & _).
    repeat split; try assumption.
    apply (read_files_raises w (files task) [] n).
    now rewrite read_files_result, Hfirst.
  - unfold agent_request, agent_prompt, get_system_prompt in *.
    destruct (project_context agent) as [entries|ty].
    + destruct H as (Hres & Hcalls & Hc & _).
      rewrite Hres in Hset.
      eexists _, _. split; [reflexivity|]. split; [exact Hres|]. now repeat split.
    + destruct H as (Hres & Hcalls & Hc & _). now repeat split.
Qed.

(* ===================================================================== *)
(** * Calls and pauses of a workflow *)
(* ===================================================================== *)

Lemma first_read_failure_none (w : World) (task : AgentTask) :
  readable_or_missing w task
  = match first_read_failure w (files task) with
    | None => true
    | Some _ => false
    end.
Proof.
  unfold readable_or_missing.
  induction (files task) as [|p rest IH]; [reflexivity|].
  cbn [forallb first_read_failure]. unfold read_fails at 1.
  destruct (read_text w p) as [c|e]; [exact IH|].
  destruct (is_FileNotFoundError e); [exact IH|reflexivity].
Qed.

(** One iteration: the task's request followed by a sleep when the task
    leads to a request, nothing of the kind otherwise. *)
Lemma process_workflow_body_pacing (w : World) (self : MultiAgentOrchestrator)
    (task : AgentTask) (results : list Dict) (n : nat) :
  let b := process_workflow_body w self task results n in
  match task_request w self task with
  | Some request => pacing (emitted b) = call_then_sleep request /\ calls b = S n
  | None => pacing (emitted b) = [] /\ calls b = n
  end.
Proof.
  cbv zeta. unfold task_request.
  rewrite process_workflow_body_run, first_read_failure_none.
  destruct (agents_get (task_type task) (agents self)) as [agent|]; [|now split].
  cbv zeta.
  pose proof (process_task_outcome w agent task n) as H. cbv zeta in H.
  unfold pacing in *.
  destruct (first_read_failure w (files task)) as [e|];
    [|destruct (agent_request agent task (present_blocks w (files task)))
        as [request|e]];
    destruct H as (-> & -> & _ & Hp);
    cbn [emitted calls filter processing_event is_paced is_completion is_sleep orb];
    rewrite filter_app, Hp; now split.
Qed.

Lemma process_workflow_loop_pacing (w : World) (self : MultiAgentOrchestrator)
    (l : list AgentTask) (results : list Dict) (n : nat) :
  pacing (emitted (process_workflow_loop w self l results n))
  = flat_map call_then_sleep (workflow_requests w self l)
  /\ calls (process_workflow_loop w self l results n)
     = n + List.length (workflow_requests w self l).
Proof.
  revert results n. induction l as [|task rest IH]; intros results n.
  - cbn. now rewrite Nat.add_0_r.
  - rewrite process_workflow_loop_cons. cbv zeta.
    pose proof (process_workflow_body_pacing w self task results n) as Hb.
    cbv zeta in Hb.
    rewrite process_workflow_body_result.
    destruct (IH (results ++ match agents_get (task_type task) (agents self) with
                             | Some agent => [appended_record w agent task n]
                             | None => []
                             end)%list
                 (calls (process_workflow_body w self task results n)))
      as (Hp & Hcalls).
    cbn [result emitted calls]. unfold pacing in *.
    rewrite filter_app, Hp, Hcalls.
    unfold workflow_requests. cbn [flat_map].
    destruct (task_request w self task) as [request|]; destruct Hb as [-> ->];
      rewrite ?flat_map_app, ?length_app; cbn [flat_map List.length app call_then_sleep];
      split; try reflexivity; lia.
Qed.

Lemma sleeps_are_paced (trace : list Event) : sleeps trace = sleeps (pacing trace).
Proof.
  unfold sleeps, pacing. induction trace as [|ev trace IH]; [reflexivity|].
  cbn [filter]. destruct ev; cbn; now rewrite ?IH.
Qed.

Lemma completions_are_paced (trace : list Event) :
  completions trace = completions (pacing trace).
Proof.
  unfold completions, pacing. induction trace as [|ev trace IH]; [reflexivity|].
  cbn [filter]. destruct ev; cbn; now rewrite ?IH.
Qed.

Lemma sleeps_of_pacing (trace : list Event) (requests : list ChatRequest) :
  pacing trace = flat_map call_then_sleep requests ->
  sleeps trace = repeat (Sleep 1) (List.length requests)
  /\ completions trace = map Completion requests.
Proof.
  intros Hp. rewrite sleeps_are_paced, completions_are_paced, Hp. clear.
  induction requests as [|r requests [IHs IHc]]; [now split|].
  cbn. unfold sleeps, completions in *. now rewrite IHs, IHc.
Qed.

Lemma workflow_requests_length (w : World) (self : MultiAgentOrchestrator)
    (l : list AgentTask) :
  List.length (workflow_requests w self l)
  = List.length (filter (leads_to_request w self) l).
Proof.
  unfold workflow_requests. induction l as [|t l IH]; [reflexivity|].
  cbn [flat_map filter]. rewrite length_app, IH. unfold leads_to_request at 2.
  now destruct (task_request w self t).
Qed.

(** X6.  In a run of [process_workflow] the completion requests and the
    sleeps alternate: every request is followed by a sleep of one second
    before the next request.  The requests are, in processing order, those of
    the tasks that lead to one: the request the task's agent builds from the
    present files, for each task that has a registered agent, whose files can
    all be read or are missing and whose prompt can be built; no other task
    causes a request. *)
Theorem process_workflow_paces_its_calls
    (w : World) (self : MultiAgentOrchestrator) (tasks : list AgentTask) (n : nat) :
  let r := process_workflow w self tasks n in
  let requests := workflow_requests w self (sorted priority true tasks) in
  pacing (emitted r) = flat_map call_then_sleep requests
  /\ completions (emitted r) = map Completion requests
  /\ sleeps (emitted r) = repeat (Sleep 1) (List.length requests)
  /\ calls r = n + List.length requests
  /\ List.length requests
     = List.length (filter (leads_to_request w self) tasks).
Proof.
  cbv zeta.
  destruct (process_workflow_loop_pacing w self (sorted priority true tasks) [] n)
    as (Hp & Hcalls).
  destruct (process_workflow_loop_records w self (fun _ _ => True))
    with (l := sorted priority true tasks) (results := @nil Dict) (n := n)
    as (recs & Hres & _); [trivial|].
  assert (Hrun : emitted (process_workflow w self tasks n)
                 = emitted (process_workflow_loop w self (sorted priority true tasks) [] n)
                 /\ calls (process_workflow w self tasks n)
                    = calls (process_workflow_loop w self (sorted priority true tasks) [] n)).
  { unfold process_workflow, bind. rewrite Hres. cbn [emitted calls ret].
    now rewrite app_nil_r. }
  destruct Hrun as [-> ->].
  destruct (sleeps_of_pacing _ _ Hp) as [Hs Hc].
  split; [exact Hp|]. split; [exact Hc|]. split; [exact Hs|]. split; [exact Hcalls|].
  rewrite !workflow_requests_length.
  apply Permutation_length, filter_perm, sorted_reverse_perm.
Qed.

(* ===================================================================== *)
(** * Tasks without an agent *)
(* ===================================================================== *)

Section SortAndFilter.

Variable A : Type.
Variable key : A -> Z.
Variable f : A -> bool.

Lemma insert_at_head (x : A) (l : list A) :
  Forall (fun z => key x <= key z)%Z l -> insert key x l = x :: l.
Proof.
  destruct 1 as [|y l Hy _]; [reflexivity|].
  cbn. apply Z.ltb_ge in Hy. now rewrite Hy.
Qed.

Lemma insert_filter_comm (x : A) (l : list A) :
  StronglySorted (fun a b => key a <= key b)%Z l ->
  filter f (insert key x l)
  = if f x then insert key x (filter f l) else filter f l.
Proof.
  induction 1 as [|y l Hl IH Hy]; [cbn; now destruct (f x)|].
  cbn [insert]. destruct (key y <? key x)%Z eqn:E.
  - cbn [filter]. rewrite IH.
    destruct (f y), (f x); try reflexivity.
    cbn [insert]. now rewrite E.
  - apply Z.ltb_ge in E. cbn [filter].
    destruct (f x); [|reflexivity].
    symmetry.
    change (insert key x (filter f (y :: l)) = x :: filter f (y :: l)).
    apply insert_at_head.
    apply Forall_forall. intros z Hz. apply filter_In in Hz as [Hz _].
    destruct Hz as [<-|Hz]; [exact E|].
    rewrite Forall_forall in Hy. specialize (Hy z Hz). lia.
Qed.

Lemma sort_ascending_filter (l : list A) :
  filter f (sort_ascending key l) = sort_ascending key (filter f l).
Proof.
  induction l as [|x l IH]; [reflexivity|].
  cbn [sort_ascending filter].
  rewrite insert_filter_comm by apply sort_ascending_sorted.
  rewrite IH. now destruct (f x).
Qed.

(** Sorting and then dropping elements is dropping them and then sorting. *)
Lemma sorted_reverse_filter (l : list A) :
  filter f (sorted key true l) = sorted key true (filter f l).
Proof.
  unfold sorted. now rewrite filter_rev, sort_ascending_filter, filter_rev.
Qed.

End SortAndFilter.

(** The loop treats a list as it treats the list without the tasks that have
    no agent, up to the warnings it logs for them. *)
Lemma process_workflow_loop_skips (w : World) (self : MultiAgentOrchestrator)
    (l : list AgentTask) (results : list Dict) (n : nat) :
  result (process_workflow_loop w self l results n)
  = result (process_workflow_loop w self (filter (registered self) l) results n)
  /\ calls (process_workflow_loop w self l results n)
     = calls (process_workflow_loop w self (filter (registered self) l) results n)
  /\ pacing (emitted (process_workflow_loop w self l results n))
     = pacing (emitted (process_workflow_loop w self (filter (registered self) l)
                          results n)).
Proof.
  revert results n. induction l as [|task rest IH]; intros results n; [now repeat split|].
  cbn [filter]. unfold registered at 1 4 7.
  destruct (agents_get (task_type task) (agents self)) as [agent|] eqn:Hget.
  - rewrite !process_workflow_loop_cons. cbv zeta.
    destruct (result (process_workflow_body w self task results n)) as [results'|e];
      [|now repeat split].
    cbn [result calls emitted].
    destruct (IH results' (calls (process_workflow_body w self task results n)))
      as (Hr & Hc & Hp).
    unfold pacing in *. rewrite !filter_app, Hp. now repeat split.
  - rewrite process_workflow_loop_cons. cbv zeta.
    rewrite process_workflow_body_run, Hget. cbn [result calls emitted].
    destruct (IH results n) as (Hr & Hc & Hp).
    repeat split; assumption.
Qed.

(** X7.  Tasks whose category has no agent do not influence the outcome of
    a workflow: running [process_workflow] on the whole list or on the list
    without them gives the same records in the same order, the same
    [completed_tasks] and [failed_tasks], and the same completion requests;
    only [total_tasks] tells the two runs apart. *)
Theorem unregistered_tasks_leave_results_unchanged
    (w : World) (self : MultiAgentOrchestrator) (tasks : list AgentTask) (n : nat) :
  let kept := filter (registered self) tasks in
  exists summary summary',
    result (process_workflow w self tasks n) = Returns summary
    /\ result (process_workflow w self kept n) = Returns summary'
    /\ workflow_results summary = workflow_results summary'
    /\ completed_tasks summary = completed_tasks summary'
    /\ failed_tasks summary = failed_tasks summary'
    /\ total_tasks summary
       = total_tasks summary'
         + List.length (filter (fun t => negb (registered self t)) tasks)
    /\ completions (emitted (process_workflow w self tasks n))
       = completions (emitted (process_workflow w self kept n)).
Proof.
  cbv zeta.
  destruct (process_workflow_loop_records w self (fun _ _ => True))
    with (l := sorted priority true tasks) (results := @nil Dict) (n := n)
    as (recs & Hres & _); [trivial|].
  destruct (process_workflow_loop_skips w self (sorted priority true tasks) [] n)
    as (Hr & Hc & Hp).
  rewrite sorted_reverse_filter in Hr, Hc, Hp.
  rewrite Hres in Hr. symmetry in Hr.
  assert (Hrun : forall l,
             result (process_workflow_loop w self (sorted priority true l) [] n)
             = Returns ([] ++ recs)%list ->
             process_workflow w self l n
             = {| result := Returns {| workflow_results := recs;
                                       total_tasks := List.length l;
                                       completed_tasks := count_status "completed" recs;
                                       failed_tasks := count_status "error" recs |};
                  emitted := emitted (process_workflow_loop w self
                                        (sorted priority true l) [] n);
                  calls := calls (process_workflow_loop w self
                                    (sorted priority true l) [] n) |}).
  { intros l H. unfold process_workflow, bind. rewrite H. cbn [result emitted calls ret].
    now rewrite app_nil_r. }
  rewrite (Hrun tasks Hres), (Hrun _ Hr).
  eexists _, _. cbn [result emitted workflow_results completed_tasks failed_tasks total_tasks].
  repeat split.
  - cbn [total_tasks]. apply filter_split_length.
  - rewrite (completions_are_paced
               (emitted (process_workflow_loop w self (sorted priority true tasks) [] n))).
    rewrite Hp. symmetry. apply completions_are_paced.
Qed.

(* ===================================================================== *)
(** * The convenience workflows and the command line *)
(* ===================================================================== *)

(** A workflow of one task that has an agent. *)
Lemma process_workflow_single (w : World) (self : MultiAgentOrchestrator)
    (task : AgentTask) (agent : CodexAgent) (n : nat) :
  agents_get (task_type task) (agents self) = Some agent ->
  result (process_workflow w self [task] n)
  = Returns {| workflow_results := [appended_record w agent task n];
               total_tasks := 1;
               completed_tasks :=
                 if get_eq_str "status" "completed" (appended_record w agent task n)
                 then 1 else 0;
               failed_tasks :=
                 if get_eq_str "status" "error" (appended_record w agent task n)
                 then 1 else 0 |}.
Proof.
  intros Hget. unfold process_workflow, bind.
  change (sorted priority true [task]) with [task].
  rewrite process_workflow_loop_cons. cbv zeta.
  rewrite process_workflow_body_result, Hget.
  cbn [process_workflow_loop app]. unfold ret. cbn [result].
  unfold count_status. cbn [filter].
  now destruct (get_eq_str "status" "completed" _), (get_eq_str "status" "error" _).
Qed.

Lemma appended_record_outcome (w : World) (agent : CodexAgent) (task : AgentTask) (n : nat) :
  appended_record w agent task n
  = match first_read_failure w (files task) with
    | Some e => error_record (task_type task) (str e)
    | None =>
        match agent_request agent task (present_blocks w (files task)) with
        | Raises e => error_record (task_type task) (str e)
        | Returns request =>
            match chat_completion w n request with
            | Returns payload =>
                completed_record (agent_class agent) (agent_type agent) payload (files task)
            | Raises e => error_record (agent_type agent) (str e)
            end
        end
    end.
Proof.
  unfold appended_record.
  pose proof (process_task_outcome w agent task n) as H. cbv zeta in H.
  destruct (first_read_failure w (files task));
    [|destruct (agent_request agent task (present_blocks w (files task)))];
    destruct H as (-> & _); reflexivity.
Qed.

(** X8.  On a constructed orchestrator each of [code_review_workflow],
    [documentation_workflow] and [testing_workflow] returns a summary of one
    task and one record of the workflow's category: the error record of the
    first file that cannot be read, else the error record of the failure to
    build the prompt (a project context that is not a JSON object), else the
    completed record with the model's answer and the given paths, else the
    error record of the failed completion call.  [completed_tasks] and
    [failed_tasks] are 1 and 0, or 0 and 1, accordingly. *)
Theorem convenience_workflows_return_one_record
    (w : World) (openai_api_key : option string) (n0 : nat)
    (self : MultiAgentOrchestrator) (choice : WorkflowChoice)
    (file_paths : list string) (n : nat) :
  result (MultiAgentOrchestrator_init w openai_api_key n0) = Returns self ->
  let run := match choice with
             | review => code_review_workflow w self file_paths n
             | docs => documentation_workflow w self file_paths n
             | test => testing_workflow w self file_paths n
             end in
  exists agent d,
    agents_get (choice_category choice) (agents self) = Some agent
    /\ d = match first_read_failure w file_paths with
           | Some e => error_record (choice_category choice) (str e)
           | None =>
               match agent_request agent (choice_task choice file_paths)
                       (present_blocks w file_paths) with
               | Raises e => error_record (choice_category choice) (str e)
               | Returns request =>
                   match chat_completion w n request with
                   | Returns payload =>
                       completed_record (agent_class agent) (choice_category choice)
                         payload file_paths
                   | Raises e => error_record (choice_category choice) (str e)
                   end
               end
           end
    /\ settled d
    /\ result run
       = Returns {| workflow_results := [d];
                    total_tasks := 1;
                    completed_tasks := if get_eq_str "status" "completed" d then 1 else 0;
                    failed_tasks := if get_eq_str "status" "error" d then 1 else 0 |}.
Proof.
  intros Hinit. cbv zeta.
  destruct (init_registry _ _ _ _ Hinit) as (c & ctx & Hreg).
  assert (Hget : exists agent,
             agents_get (choice_category choice) (agents self) = Some agent
             /\ agent_type agent = choice_category choice).
  { rewrite Hreg, registry_get. destruct choice; eexists; split; reflexivity. }
  destruct Hget as (agent & Hget & Htype).
  exists agent, (appended_record w agent (choice_task choice file_paths) n).
  split; [exact Hget|].
  split.
  { rewrite appended_record_outcome, Htype. now destruct choice. }
  split; [apply appended_record_settled|].
  destruct choice;
    [change (code_review_workflow w self file_paths)
       with (process_workflow w self [code_review_task file_paths])
    |change (documentation_workflow w self file_paths)
       with (process_workflow w self [documentation_task file_paths])
    |change (testing_workflow w self file_paths)
       with (process_workflow w self [testing_task file_paths])];
    now apply process_workflow_single.
Qed.

Lemma convenience_workflows_return_one_record_witness :
  result (MultiAgentOrchestrator_init list_context_world None 0)
  = Returns list_context_orchestrator
  /\ result (documentation_workflow list_context_world list_context_orchestrator
               ["bot.py"; "ghost.py"] 0)
     = Returns {| workflow_results :=
                    [ [ ("agent_type", VStr "documentation");
                        ("status", VStr "error");
                        ("error", VStr "'list' object has no attribute 'get'") ] ];
                  total_tasks := 1;
                  completed_tasks := 0;
                  failed_tasks := 1 |}.
Proof.
  split; [reflexivity|].
  destruct (convenience_workflows_return_one_record list_context_world None 0
              list_context_orchestrator docs ["bot.py"; "ghost.py"] 0 eq_refl)
    as (agent & d & Hget & Hd & _ & Hrun).
  cbv zeta in Hrun. rewrite Hrun.
  cbn in Hget. injection Hget as <-.
  cbn in Hd. subst d. reflexivity.
Defined.

Lemma init_calls (w : World) (openai_api_key : option string) (n : nat) :
  calls (MultiAgentOrchestrator_init w openai_api_key n) = n.
Proof.
  rewrite MultiAgentOrchestrator_init_run.
  destruct (credential w openai_api_key) as [k|]; [|reflexivity].
  destruct (String.eqb k ""); [reflexivity|].
  destruct (load_context_json w) as [ctx|e]; [reflexivity|].
  destruct (is_FileNotFoundError e); reflexivity.
Qed.

Ltac main_finish :=
  unfold is_Exception, main_failed, bind, logger_error, emit, ret;
  cbn [result emitted calls app];
  first [ reflexivity
        | split; [reflexivity|];
          repeat (apply in_or_app; right); now left ].

(** X9.  [main] never raises.  It returns 1, printing and saving nothing,
    when the orchestrator cannot be constructed.  Otherwise it runs the
    chosen workflow on [args.files]; failures of file reads or of the model
    only show in the records.  Without [--output] (or with an empty one) the
    data is printed; with [--output] the data is saved and a line is printed.
    The result is 0 when these steps succeed and 1, after a [Workflow failed]
    log, when one of them raises; a file saved before a failing [print] stays
    saved. *)
Theorem main_returns_zero_or_one
    (w : World) (console : Console) (args : Namespace) (n : nat) :
  let r := main w console args n in
  match result (MultiAgentOrchestrator_init w None n) with
  | Raises e =>
      result r = Returns {| return_value := 1; printed := []; saved := None |}
      /\ In (Log ERROR ("Workflow failed: " ++ str e)) (emitted r)
      /\ calls r = n
  | Returns self =>
      exists summary,
        result (match args_workflow args with
                | review => code_review_workflow w self (args_files args)
                | docs => documentation_workflow w self (args_files args)
                | test => testing_workflow w self (args_files args)
                end n) = Returns summary
        /\ let data := {| workflow_type := choice_name (args_workflow args);
                          timestamp := loop_time console;
                          results := summary |} in
           let printing :=
             match print console (PrintJson data) with
             | Returns _ =>
                 result r = Returns {| return_value := 0;
                                       printed := [PrintJson data];
                                       saved := None |}
             | Raises e =>
                 result r = Returns {| return_value := 1; printed := []; saved := None |}
                 /\ In (Log ERROR ("Workflow failed: " ++ str e)) (emitted r)
             end in
           match args_output args with
           | Some path =>
               if String.eqb path "" then printing
               else
                 match write_json console path data with
                 | Returns _ =>
                     match print console (PrintLine ("Results saved to: " ++ path)) with
                     | Returns _ =>
                         result r
                         = Returns {| return_value := 0;
                                      printed := [PrintLine ("Results saved to: " ++ path)];
                                      saved := Some (path, data) |}
                     | Raises e =>
                         result r = Returns {| return_value := 1;
                                               printed := [];
                                               saved := Some (path, data) |}
                         /\ In (Log ERROR ("Workflow failed: " ++ str e)) (emitted r)
                     end
                 | Raises e =>
                     result r = Returns {| return_value := 1; printed := []; saved := None |}
                     /\ In (Log ERROR ("Workflow failed: " ++ str e)) (emitted r)
                 end
           | None => printing
           end
  end.
Proof.
  cbv zeta.
  pose proof (init_calls w None n) as Hcalls.
  unfold main, try_except, bind.
  destruct (MultiAgentOrchestrator_init w None n) as [ires iem icalls].
  cbn [result emitted calls] in *. subst icalls.
  destruct ires as [self|e].
  - set (run := match args_workflow args with
                | review => code_review_workflow w self (args_files args)
                | docs => documentation_workflow w self (args_files args)
                | test => testing_workflow w self (args_files args)
                end n).
    assert (Hrun : exists summary, result run = Returns summary).
    { subst run.
      destruct (args_workflow args);
        [destruct (process_workflow_records w self (fun _ _ => True))
           with (tasks := [code_review_task (args_files args)]) (n := n)
           as (recs & Hres & _); [trivial|]
        |destruct (process_workflow_records w self (fun _ _ => True))
           with (tasks := [documentation_task (args_files args)]) (n := n)
           as (recs & Hres & _); [trivial|]
        |destruct (process_workflow_records w self (fun _ _ => True))
           with (tasks := [testing_task (args_files args)]) (n := n)
           as (recs & Hres & _); [trivial|]];
        eexists; exact Hres. }
    destruct Hrun as (summary & Hrun). exists summary. split; [exact Hrun|].
    destruct run as [wres wem wcalls]. cbn [result] in Hrun. subst wres.
    cbn [result emitted calls]. unfold main_output.
    destruct (args_output args) as [path|]; cbn [truthy negb].
    + destruct (String.eqb path ""); cbn [negb].
      * destruct (print console (PrintJson _)) as [[]|e]; main_finish.
      * destruct (write_json console path _) as [[]|e];
          [destruct (print console (PrintLine _)) as [[]|e]|]; main_finish.
    + destruct (print console (PrintJson _)) as [[]|e]; main_finish.
  - unfold is_Exception, main_failed, bind, logger_error, emit, ret.
    cbn [result emitted calls app].
    split; [reflexivity|]. split; [|reflexivity].
    apply in_or_app. right. now left.
Qed.

Example main_without_key :
  result (main keyless_world sample_console
            {| args_workflow := review; args_files := ["bot.py"]; args_output := None |} 0)
  = Returns {| return_value := 1; printed := []; saved := None |}.
Proof. reflexivity. Qed.

Example main_saves_before_failing_to_print :
  match result (main offline_world closed_pipe_console
                  {| args_workflow := test; args_files := ["bot.py"];
                     args_output := Some "out.json" |} 0) with
  | Returns report =>
      return_value report = 1%Z /\ printed report = []
      /\ option_map fst (saved report) = Some "out.json"
  | Raises _ => False
  end.
Proof. repeat split. Qed.

(* ===================================================================== *)
(** * What the log shows, and what a task's priority does not touch *)
(* ===================================================================== *)

Lemma filter_swap {X : Type} (f g : X -> bool) (l : list X) :
  filter f (filter g l) = filter g (filter f l).
Proof.
  induction l as [|x l IH]; [reflexivity|].
  cbn [filter]. destruct (g x) eqn:Eg, (f x) eqn:Ef; cbn [filter];
    rewrite ?Eg, ?Ef, IH; reflexivity.
Qed.

Lemma process_task_no_info (w : World) (agent : CodexAgent) (task : AgentTask) (n : nat) :
  infos (emitted (process_task w agent task n)) = [].
Proof.
  rewrite process_task_run. cbv zeta. unfold infos.
  pose proof (read_files_emits_warnings w (files task) [] n) as Hw.
  assert (Hs : filter is_info (emitted (read_files w (files task) [] n)) = []).
  { induction Hw as [|ev l Hev _ IH]; [reflexivity|].
    cbn [filter]. destruct ev as [[]| |]; try discriminate Hev. exact IH. }
  destruct (result (read_files w (files task) [] n)) as [fc|e]; [|exact Hs].
  destruct (agent_request agent task fc) as [request|e]; [|exact Hs].
  destruct (chat_completion w _ request); cbn [emitted]; rewrite filter_app, Hs;
    reflexivity.
Qed.

Lemma process_workflow_loop_infos (w : World) (self : MultiAgentOrchestrator)
    (l : list AgentTask) (results : list Dict) (n : nat) :
  infos (emitted (process_workflow_loop w self l results n))
  = map processing_event (filter (registered self) l).
Proof.
  revert results n. induction l as [|task rest IH]; intros results n; [reflexivity|].
  rewrite process_workflow_loop_cons. cbv zeta.
  rewrite process_workflow_body_result. cbn [result emitted filter].
  unfold infos in *. rewrite filter_app, IH.
  rewrite process_workflow_body_run. unfold registered at 2.
  destruct (agents_get (task_type task) (agents self)) as [agent|]; [|reflexivity].
  cbv zeta. pose proof (process_task_no_info w agent task n) as Hn. unfold infos in Hn.
  destruct (result (process_task w agent task n)); cbn [emitted filter processing_event is_info];
    rewrite filter_app, Hn; reflexivity.
Qed.

(** X10.  The [Processing ... task: ...] lines of a workflow's log are, in
    this order, those of the tasks that have an agent, taken by descending
    priority with ties in submission order; nothing else is logged at level
    INFO. *)
Theorem processing_log_follows_priority
    (w : World) (self : MultiAgentOrchestrator) (tasks : list AgentTask) (n : nat) :
  infos (emitted (process_workflow w self tasks n))
  = map processing_event (filter (registered self) (sorted priority true tasks))
  /\ Permutation (filter (registered self) (sorted priority true tasks))
       (filter (registered self) tasks)
  /\ StronglySorted (fun t1 t2 => priority t1 >= priority t2)%Z
       (filter (registered self) (sorted priority true tasks))
  /\ forall p : Z,
       filter (priority_eqb p) (filter (registered self) (sorted priority true tasks))
       = filter (priority_eqb p) (filter (registered self) tasks).
Proof.
  split; [|split; [|split]].
  - destruct (process_workflow_loop_records w self (fun _ _ => True))
      with (l := sorted priority true tasks) (results := @nil Dict) (n := n)
      as (recs & Hres & _); [trivial|].
    unfold process_workflow, bind. rewrite Hres. cbn [emitted ret].
    rewrite app_nil_r. apply process_workflow_loop_infos.
  - apply filter_perm, sorted_reverse_perm.
  - apply StronglySorted_filter, (sorted_reverse_descending _ priority).
  - intros p. rewrite !(filter_swap (priority_eqb p)). f_equal.
    apply (sorted_reverse_stable _ priority p tasks).
Qed.

(** X11.  [process_task] looks at a task's files, description and
    requirements only: two tasks that agree on these are processed alike,
    whatever their priority, context and category. *)
Theorem process_task_ignores_priority
    (w : World) (agent : CodexAgent) (task task' : AgentTask) (n : nat) :
  files task = files task' ->
  description task = description task' ->
  requirements task = requirements task' ->
  process_task w agent task n = process_task w agent task' n.
Proof.
  intros Hf Hd Hr. rewrite !process_task_run. cbv zeta.
  assert (Hreq : forall fc, agent_request agent task fc = agent_request agent task' fc).
  { intros fc. unfold agent_request, agent_prompt, class_prompt.
    destruct (get_system_prompt agent); [|reflexivity].
    destruct (agent_class agent);
      unfold CodeReviewerAgent_prompt, DocumentationAgent_prompt, TestingAgent_prompt;
      now rewrite Hd, Hr. }
  rewrite <- Hf.
  destruct (result (read_files w (files task) [] n)) as [fc|e]; [|reflexivity].
  now rewrite Hreq.
Qed.

Lemma process_task_ignores_priority_witness :
  files review_bot = files document_bot
  /\ description review_bot = description (sample_task SECURITY "A" ["bot.py"] 7)
  /\ process_task sample_world reviewer review_bot 0
     = process_task sample_world reviewer (sample_task SECURITY "A" ["bot.py"] 7) 0.
Proof.
  split; [reflexivity|]. split; [reflexivity|].
  apply (process_task_ignores_priority sample_world reviewer review_bot
           (sample_task SECURITY "A" ["bot.py"] 7) 0); reflexivity.
Defined.
